(** * Minions-Voice-Changer: a shallow embedding of [main.py]

    The development models the voice conversion of [main.py]:
    [VoiceConverter.pitch_shift], [VoiceConverter.formant_shift],
    [VoiceConverter.apply_female_characteristics],
    [VoiceConverter.convert_to_female_voice] and [process_voice].

    Conventions.
    - Python floats that the program itself computes with
      ([shift_factor], [brightness], the product [i * shift_factor]) are
      IEEE binary64 numbers: Rocq's primitive [float].
    - Audio samples and spectral magnitudes are exact rationals ([Q]); the
      rounding of numpy's float arithmetic on samples is not modelled.
    - A Python exception is a value [Raise e] of the type [result]; code
      that touches files or prints threads a [World] through the monad [M].
    - librosa, scipy and soundfile are third-party code outside [main.py].
      Their numerical kernels are the fields of the record [Libs]; what the
      development relies on beyond that is stated where it is used. *)

From Stdlib Require Import ZArith QArith Qabs Qminmax Floats Lia.
From stdpp Require Import base list strings pretty gmap.

(** ** Exceptions and fallible computations *)

(** A raised Python exception: its class name and [str(e)]. Every class the
    program can meet derives from [Exception]. *)
Record exn := Exception { exn_class : string; exn_str : string }.

Inductive result (A : Type) : Type :=
| Ok (a : A)
| Raise (e : exn).
Arguments Ok {A} a.
Arguments Raise {A} e.

Definition rbind {A B} (r : result A) (k : A -> result B) : result B :=
  match r with
  | Ok a => k a
  | Raise e => Raise e
  end.

Declare Scope result_scope.
Delimit Scope result_scope with result.
Notation "x <- r ; k" := (rbind r (fun x => k))
  (at level 100, r at next level, right associativity) : result_scope.
Open Scope result_scope.

(** Monadic left fold: the body of a [for] loop run over a list of indices,
    stopping at the first exception. *)
Fixpoint foldM {S X} (body : S -> X -> result S) (s : S) (xs : list X) : result S :=
  match xs with
  | [] => Ok s
  | x :: xs' => s' <- body s x; foldM body s' xs'
  end.

(** ** Python's [float] and [int] *)

Definition ValueError := Exception "ValueError".
Definition OverflowError := Exception "OverflowError".
Definition IndexError := Exception "IndexError".
Definition ZeroDivisionError := Exception "ZeroDivisionError".

(** [float(i)] for a loop index (exact below 2^53). *)
Definition float_of_nat (i : nat) : float :=
  PrimFloat.of_uint63 (Uint63.of_Z (Z.of_nat i)).

(** Truncation toward zero of the finite binary64 number [(-1)^s * m * 2^e]. *)
Definition SFtrunc (s : bool) (m : positive) (e : Z) : Z :=
  let a := if (0 <=? e)%Z then Z.shiftl (Z.pos m) e else Z.shiftr (Z.pos m) (- e) in
  if s then (- a)%Z else a.

(** Python's [int(x)] on a float: truncation toward zero; [ValueError] on
    NaN, [OverflowError] on an infinity. *)
Definition py_int (x : float) : result Z :=
  match Prim2SF x with
  | S754_nan => Raise (ValueError "cannot convert float NaN to integer")
  | S754_infinity _ => Raise (OverflowError "cannot convert float infinity to integer")
  | S754_zero _ => Ok 0%Z
  | S754_finite s m e => Ok (SFtrunc s m e)
  end.

(** ** numpy arrays as lists *)

(** One row of a spectrogram: the values of one frequency bin over all
    analysis frames. *)
Definition row := list Q.

(** [np.zeros_like]. *)
Definition zeros_like (m : list row) : list row :=
  (fun r : row => (fun _ : Q => 0%Q) <$> r) <$> m.

(** [a[i]] for a non-negative index of [range(len(a))]. *)
Definition np_getitem {A} (a : list A) (i : nat) : result A :=
  match a !! i with
  | Some x => Ok x
  | None => Raise (IndexError "index out of bounds")
  end.

(** [a[k] = v] along the first axis: a negative [k] counts from the end, and
    an index outside [-len(a) .. len(a)-1] raises [IndexError]. *)
Definition np_setitem {A} (a : list A) (k : Z) (v : A) : result (list A) :=
  let n := Z.of_nat (length a) in
  if ((0 <=? k) && (k <? n))%Z then Ok (<[Z.to_nat k := v]> a)
  else if ((- n <=? k) && (k <? 0))%Z then Ok (<[Z.to_nat (n + k) := v]> a)
  else Raise (IndexError "index out of bounds").

(** ** [VoiceConverter.formant_shift]: the relocation loop (lines 29-35) *)

(** [int(i * shift_factor)]. *)
Definition new_freq (shift_factor : float) (i : nat) : result Z :=
  py_int (float_of_nat i * shift_factor)%float.

(** The body of [for i in range(freq_bins)]. *)
Definition relocate (magnitude : list row) (shift_factor : float)
    (new_magnitude : list row) (i : nat) : result (list row) :=
  let freq_bins := length magnitude in
  new_freq <- new_freq shift_factor i;
  if (new_freq <? Z.of_nat freq_bins)%Z then
    r <- np_getitem magnitude i;
    np_setitem new_magnitude new_freq r
  else Ok new_magnitude.

(** Lines 29-35: [new_magnitude] after the loop. *)
Definition shift_magnitude (magnitude : list row) (shift_factor : float)
  : result (list row) :=
  let freq_bins := length magnitude in
  let new_magnitude := zeros_like magnitude in
  foldM (relocate magnitude shift_factor) new_magnitude (seq 0 freq_bins).

(** The bin that iteration [i] of the loop writes, when it writes one:
    [int(i * shift_factor)], counted from the end when negative. *)
Definition target (freq_bins : nat) (shift_factor : float) (i : nat) : option nat :=
  match new_freq shift_factor i with
  | Ok k =>
      let n := Z.of_nat freq_bins in
      if (k <? n)%Z then
        if (0 <=? k)%Z then Some (Z.to_nat k)
        else if (- n <=? k)%Z then Some (Z.to_nat (n + k))
        else None
      else None
  | Raise _ => None
  end.

(** The last of the first [k] iterations that writes bin [d]. *)
Fixpoint last_source (freq_bins : nat) (shift_factor : float) (k d : nat) : option nat :=
  match k with
  | O => None
  | S k' =>
      if decide (target freq_bins shift_factor k' = Some d) then Some k'
      else last_source freq_bins shift_factor k' d
  end.

(** A row without energy. *)
Definition silent (y : list Q) : Prop := Forall (fun s => (s == 0)%Q) y.

(** Python's built-in [round] on a float: to the nearest integer, ties to
    the even one. The program never calls it; it is the destination the
    specification names, kept for comparison with [new_freq]. *)
Definition SFround (x : spec_float) : option Z :=
  match x with
  | S754_zero _ => Some 0%Z
  | S754_finite s m e =>
      let a :=
        if (0 <=? e)%Z then Z.shiftl (Z.pos m) e
        else
          let q := Z.shiftr (Z.pos m) (- e) in
          let r := (2 * (Z.pos m - Z.shiftl q (- e)))%Z in
          let one := Z.shiftl 1 (- e) in
          if (one <? r)%Z then (q + 1)%Z
          else if (r =? one)%Z && Z.odd q then (q + 1)%Z
          else q in
      Some (if s then (- a)%Z else a)
  | S754_infinity _ | S754_nan => None
  end.

Definition spec_round_freq (shift_factor : float) (i : nat) : option Z :=
  SFround (Prim2SF (float_of_nat i * shift_factor)%float).

(** ** Files, standard output and the monad of the I/O code *)

(** A decoded audio file: its sample rate and its (mono) samples. The
    encoding of samples in the container (PCM width, clipping) is not
    modelled. *)
Record AudioFile := { file_rate : Z; file_samples : list Q }.

Record World := {
  files : gmap string AudioFile;   (* the audio files on disk, by path *)
  stdout : list string;            (* lines printed so far *)
  temp_count : nat                 (* temporary files created so far *)
}.

Definition M (A : Type) : Type := World -> result A * World.

Definition ret {A} (a : A) : M A := fun w => (Ok a, w).

Definition bind {A B} (m : M A) (k : A -> M B) : M B := fun w =>
  match m w with
  | (Ok a, w') => k a w'
  | (Raise e, w') => (Raise e, w')
  end.

(** A computation without effects run inside the I/O code. *)
Definition lift {A} (r : result A) : M A := fun w => (r, w).

(** [try: body  except Exception as e: handler(e)]. The effects of the body
    up to the exception stay. *)
Definition try_except {A} (body : M A) (handler : exn -> M A) : M A := fun w =>
  match body w with
  | (Ok a, w') => (Ok a, w')
  | (Raise e, w') => handler e w'
  end.

Declare Scope io_scope.
Delimit Scope io_scope with io.
Notation "x <- m ;; k" := (bind m (fun x => k))
  (at level 100, m at next level, right associativity) : io_scope.
Notation "m ;; k" := (bind m (fun _ => k))
  (at level 100, right associativity) : io_scope.

(** [print(line)]. *)
Definition print (line : string) : M unit := fun w =>
  (Ok tt, {| files := files w; stdout := stdout w ++ [line]; temp_count := temp_count w |}).

(** ** Third-party numerical code *)

(** What [main.py] calls in librosa, scipy and soundfile. Each call may
    raise. [complex] is the type of the entries of an STFT matrix. *)
Record Libs := {
  complex : Type;
  (** [np.abs] and [np.angle] of one entry; [m * np.exp(1j * p)]. *)
  np_abs : complex -> Q;
  np_angle : complex -> Q;
  np_polar : Q -> Q -> complex;
  (** [librosa.load]: decoding a file to mono samples at the target rate. *)
  lib_decode : AudioFile -> Z -> result (list Q);
  (** [librosa.effects.pitch_shift] before its last step: the stretched
      and resampled signal, of whatever length it comes out. *)
  lib_stretch_resample : list Q -> Z -> float -> result (list Q);
  (** [librosa.stft(y, hop_length=h)] and [librosa.istft(D, hop_length=h)];
      a matrix is the list of its rows, one per frequency bin. *)
  lib_stft : list Q -> nat -> result (list (list complex));
  lib_istft : list (list complex) -> nat -> result (list Q);
  (** [scipy.signal.butter(order, Wn, btype)] and [scipy.signal.filtfilt]. *)
  lib_butter : nat -> Q -> string -> result (list Q * list Q);
  lib_filtfilt : list Q -> list Q -> list Q -> result (list Q);
  (** Whether [soundfile.write] and [scipy.io.wavfile.write] accept their
      data and sample rate. *)
  lib_sf_accepts : list Q -> Z -> result unit;
  lib_wavfile_accepts : Z -> list Q -> result unit;
  (** The name of the n-th temporary file, or the error creating it. *)
  lib_mkstemp : nat -> string -> result string
}.

(** ** numpy arithmetic on one-dimensional arrays *)

(** [c * a] for a scalar [c]. *)
Definition np_scale (c : Q) (a : list Q) : list Q := Qmult c <$> a.

(** [a + b]: element by element for equal shapes, an array of one element
    is broadcast, any other pair of shapes raises. *)
Definition np_add (a b : list Q) : result (list Q) :=
  if (length a =? length b)%nat then Ok (zip_with Qplus a b)
  else match a, b with
       | [x], _ => Ok (Qplus x <$> b)
       | _, [y] => Ok ((fun s => (s + y)%Q) <$> a)
       | _, _ => Raise (ValueError "operands could not be broadcast together")
       end.

(** Python's [n / d] on integers, as an exact rational. *)
Definition py_truediv (n d : Z) : result Q :=
  if (d =? 0)%Z then Raise (ZeroDivisionError "division by zero")
  else Ok (inject_Z n / inject_Z d)%Q.

(** [max(abs(y))], with 0 for no sample. *)
Definition peak (y : list Q) : Q := foldr (fun s m => Qmax (Qabs s) m) 0%Q y.

(** Modelled from the spec: [librosa.util.normalize], which is not part of
    [main.py]: "scale so the maximum absolute sample equals 1.0, or leave
    silent input untouched if the peak is zero". *)
Definition librosa_normalize (y : list Q) : list Q :=
  let p := peak y in
  if Qeq_bool p 0 then y else (fun s => (s / p)%Q) <$> y.

(** [librosa.util.fix_length]: cut, or pad with zeros, to [size] samples. *)
Definition fix_length (y : list Q) (size : nat) : list Q :=
  take size y ++ replicate (size - length y) 0%Q.

Section Program.

Context (L : Libs).

(** Modelled from the spec: [librosa.effects.pitch_shift], which is not part
    of [main.py]: the signal is time-stretched and resampled by the ratio
    of the shift, "then resample[d] ... back to original length". *)
Definition librosa_pitch_shift (y : list Q) (sr : Z) (n_steps : float) : result (list Q) :=
  y_shift <- lib_stretch_resample L y sr n_steps;
  Ok (fix_length y_shift (length y)).

(** [librosa.load(path, sr=sr)]: the file at [path], decoded and resampled
    to [sr]; the rate returned is the rate asked for. *)
Definition librosa_load (path : string) (sr : Z) : M (list Q * Z) := fun w =>
  match files w !! path with
  | None => (Raise (Exception "FileNotFoundError" path), w)
  | Some f => (y <- lib_decode L f sr; Ok (y, sr), w)
  end.

(** [tempfile.NamedTemporaryFile(delete=False, suffix=suffix).name]. The
    empty file it leaves on disk is written before it is ever read. *)
Definition NamedTemporaryFile (suffix : string) : M string := fun w =>
  (lib_mkstemp L (temp_count w) suffix,
   {| files := files w; stdout := stdout w; temp_count := S (temp_count w) |}).

Definition store (name : string) (f : AudioFile) (w : World) : World :=
  {| files := <[name := f]> (files w); stdout := stdout w; temp_count := temp_count w |}.

(** [sf.write(name, data, sr)]. *)
Definition sf_write (name : string) (data : list Q) (sr : Z) : M unit := fun w =>
  match lib_sf_accepts L data sr with
  | Ok _ => (Ok tt, store name {| file_rate := sr; file_samples := data |} w)
  | Raise e => (Raise e, w)
  end.

(** [wavfile.write(name, rate, data)]. *)
Definition wavfile_write (name : string) (rate : Z) (data : list Q) : M unit := fun w =>
  match lib_wavfile_accepts L rate data with
  | Ok _ => (Ok tt, store name {| file_rate := rate; file_samples := data |} w)
  | Raise e => (Raise e, w)
  end.

(** ** class VoiceConverter *)

Record VoiceConverter := { sample_rate : Z }.

(** [__init__]. *)
Definition VoiceConverter_init : VoiceConverter := {| sample_rate := 22050 |}.

Definition pitch_shift (audio : list Q) (sr : Z) (semitones : float) : result (list Q) :=
  librosa_pitch_shift audio sr semitones.

Definition formant_shift (audio : list Q) (sr : Z) (shift_factor : float) : result (list Q) :=
  stft <- lib_stft L audio 512;
  let magnitude : list row := (fun r : list (complex L) => np_abs L <$> r) <$> stft in
  let phase : list row := (fun r : list (complex L) => np_angle L <$> r) <$> stft in
  new_magnitude <- shift_magnitude magnitude shift_factor;
  let new_stft := zip_with (zip_with (np_polar L)) new_magnitude phase in
  lib_istft L new_stft 512.

Definition apply_female_characteristics (audio : list Q) (sr : Z) : result (list Q) :=
  let nyquist := (sr / 2)%Z in
  high_freq <- py_truediv 2000 nyquist;
  ba <- lib_butter L 2 high_freq "high";
  enhanced_audio <- lib_filtfilt L ba.1 ba.2 audio;
  np_add (np_scale (7 # 10) audio) (np_scale (3 # 10) enhanced_audio).

(** Steps 1 to 3 of [convert_to_female_voice] (lines 64-72): the signal that
    enters the normalization. *)
Definition convert_steps (audio : list Q) (sr : Z)
    (pitch_shift_semitones formant_shift_factor brightness : float) : result (list Q) :=
  audio <- pitch_shift audio sr pitch_shift_semitones;
  audio <- formant_shift audio sr formant_shift_factor;
  if (1 <? brightness)%float then apply_female_characteristics audio sr
  else Ok audio.

(** Steps 1 to 4 (lines 64-75): the signal handed to [sf.write]. *)
Definition convert_audio (audio : list Q) (sr : Z)
    (pitch_shift_semitones formant_shift_factor brightness : float) : result (list Q) :=
  audio <- convert_steps audio sr pitch_shift_semitones formant_shift_factor brightness;
  Ok (librosa_normalize audio).

(** The body of the [try] of [convert_to_female_voice]. *)
Definition convert_try (self : VoiceConverter) (audio_path : string)
    (pitch_shift_semitones formant_shift_factor brightness : float) : M (option string) :=
  (loaded <- librosa_load audio_path (sample_rate self) ;;
   let audio := loaded.1 in
   let sr := loaded.2 in
   audio <- lift (convert_audio audio sr pitch_shift_semitones formant_shift_factor brightness) ;;
   temp_file <- NamedTemporaryFile ".wav" ;;
   sf_write temp_file audio sr ;;
   ret (Some temp_file))%io.

Definition convert_to_female_voice (self : VoiceConverter) (audio_path : string)
    (pitch_shift_semitones formant_shift_factor brightness : float) : M (option string) :=
  try_except
    (convert_try self audio_path pitch_shift_semitones formant_shift_factor brightness)
    (fun e => (print ("변환 중 오류 발생: " +:+ exn_str e) ;; ret None)%io).

(** ** Module level *)

Definition converter : VoiceConverter := VoiceConverter_init.

(** What Gradio hands to [process_voice] when there is audio: a recording
    [(sample_rate, audio_data)], or the path of a file. No audio is
    Python's [None]. *)
Inductive audio_source :=
| Recorded (sample_rate : Z) (audio_data : list Q)
| FilePath (path : string).

Definition msg_no_input : string := "⚠️ 음성을 먼저 녹음하거나 업로드해주세요.".
Definition msg_done : string := "✅ 변환이 완료되었습니다! 아래에서 결과를 들어보세요.".
Definition msg_failed : string := "❌ 변환 중 오류가 발생했습니다.".
Definition msg_error (e : exn) : string := "❌ 처리 중 오류 발생: " +:+ exn_str e.

(** Lines 103-111: the path of the file to convert. *)
Definition input_path (audio_input : audio_source) : M string :=
  match audio_input with
  | Recorded sample_rate audio_data =>
      (temp_input <- NamedTemporaryFile ".wav" ;;
       wavfile_write temp_input sample_rate audio_data ;;
       ret temp_input)%io
  | FilePath path => ret path
  end.

(** The body of the [try] of [process_voice]. *)
Definition process_try (audio_input : audio_source)
    (pitch_shift formant_shift brightness : float) : M (option string * string) :=
  (input_path <- input_path audio_input ;;
   output_path <- convert_to_female_voice converter input_path
                    pitch_shift formant_shift brightness ;;
   match output_path with
   | Some p => if decide (p = "") then ret (None, msg_failed) else ret (Some p, msg_done)
   | None => ret (None, msg_failed)
   end)%io.

Definition process_voice (audio_input : option audio_source)
    (pitch_shift formant_shift brightness : float) : M (option string * string) :=
  match audio_input with
  | None => ret (None, msg_no_input)
  | Some audio_input =>
      try_except
        (process_try audio_input pitch_shift formant_shift brightness)
        (fun e => ret (None, msg_error e))
  end.

End Program.

(** ** A small instance of the third-party code *)

(** An instance of [Libs] on which the program can be run: spectra are real,
    the analysis keeps one sample per hop in bin 0 of 1025 bins, and the
    synthesis holds each frame for one hop. It has the shapes of librosa's
    matrices and signals, not their values. *)
Module Demo.

Definition stft (y : list Q) (hop : nat) : result (list (list Q)) :=
  let n_frames := S (length y / hop) in
  Ok (((fun t => default 0%Q (y !! (t * hop)%nat)) <$> seq 0 n_frames)
      :: replicate 1024 (replicate n_frames 0%Q)).

Definition istft (D : list (list Q)) (hop : nat) : result (list Q) :=
  match D with
  | [] => Raise (Exception "ParameterError" "empty spectrogram")
  | r :: _ => Ok (flat_map (replicate hop) (take (length r - 1) r))
  end.

Definition butter (order : nat) (Wn : Q) (btype : string) : result (list Q * list Q) :=
  if Qle_bool Wn 0 || Qle_bool 1 Wn
  then Raise (ValueError "Digital filter critical frequencies must be 0 < Wn < 1")
  else Ok ([1%Q], [1%Q]).

Definition filtfilt (b a x : list Q) : result (list Q) :=
  if (length x <=? 9)%nat
  then Raise (ValueError "The length of the input vector x must be greater than padlen")
  else Ok ((fun s => (s / 2)%Q) <$> x).

Definition wavfile_accepts (rate : Z) (data : list Q) : result unit :=
  if (rate <? 0)%Z then Raise (Exception "struct.error" "argument out of range")
  else Ok tt.

Definition libs : Libs := {|
  complex := Q;
  np_abs := Qabs;
  np_angle := fun z => if Qle_bool 0 z then 0%Q else 1%Q;
  np_polar := fun m p => if Qeq_bool p 0 then m else (- m)%Q;
  lib_decode := fun f sr => Ok (file_samples f);
  lib_stretch_resample := fun y sr n_steps => Ok (y ++ y);
  lib_stft := stft;
  lib_istft := istft;
  lib_butter := butter;
  lib_filtfilt := filtfilt;
  lib_sf_accepts := fun data sr => Ok tt;
  lib_wavfile_accepts := wavfile_accepts;
  lib_mkstemp := fun n suffix => Ok ("/tmp/tmp" +:+ pretty n +:+ suffix)
|}.

(** 1100 samples of a square wave of amplitude 1/2. *)
Definition square : list Q :=
  flat_map (fun k : nat => replicate 50 (if Nat.even k then (1 # 2)%Q else (- 1 # 2)%Q)) (seq 0 22).

Definition world0 : World := {| files := ∅; stdout := []; temp_count := 0 |}.

(** A disk holding one file, [square] at 22050 Hz. *)
Definition world_in : World := {|
  files := {[ "/in.wav" := {| file_rate := 22050; file_samples := square |} ]};
  stdout := [];
  temp_count := 0
|}.

End Demo.

(** ** Test signals and the specification's reading of the loop *)

(** A spectrogram of one frame with unit energy in bin [i] only. *)
Definition impulse (freq_bins i : nat) : list row :=
  (fun j : nat => [if (j =? i)%nat then 1%Q else 0%Q]) <$> seq 0 freq_bins.

(** One frame with energy 1, 2, ... in bins 0, 1, ... *)
Definition ramp (freq_bins : nat) : list row :=
  (fun j : nat => [inject_Z (Z.of_nat (S j))]) <$> seq 0 freq_bins.

(** The factors 1.2 (the default of the program) and 0.8 as binary64. *)
Definition factor_1_2 : float := 0x1.3333333333333p+0%float.
Definition factor_0_8 : float := 0x1.999999999999ap-1%float.

(** The brightness 1.1 (the default of the program) as binary64. *)
Definition brightness_1_1 : float := 0x1.199999999999ap+0%float.

(** The relocation as the specification words it: the row of every source
    bin [i] is found at bin [round(i * factor)] when that is a bin. *)
Definition relocated_to_rounded_bins (magnitude : list row) (f : float)
    (new_magnitude : list row) : Prop :=
  forall i d, i < length magnitude ->
    spec_round_freq f i = Some (Z.of_nat d) -> d < length magnitude ->
    new_magnitude !! d = magnitude !! i.

(** ** What the development relies on in librosa and scipy *)

(** The shapes librosa documents for [stft] and [istft] with their default
    [n_fft = 2048] and [center=True]: the spectrogram has [1 + n_fft/2]
    rows and [1 + len(y) // hop_length] frames, and the signal rebuilt from
    [n] frames without a [length] argument has [hop_length * (n - 1)]
    samples ("a partial frame at the end of y will not be represented"). *)
Definition librosa_shapes (L : Libs) : Prop :=
  (forall y hop D, lib_stft L y hop = Ok D ->
     length D = 1025 /\ Forall (fun r => length r = S (length y / hop)) D) /\
  (forall D hop y r, lib_istft L D hop = Ok y -> D !! 0 = Some r ->
     length y = hop * (length r - 1)).


(** The output of [scipy.signal.filtfilt] has the shape of its input. *)
Definition filtfilt_keeps_shape (L : Libs) : Prop :=
  forall b a x y, lib_filtfilt L b a x = Ok y -> length y = length x.

(** ** Vocabulary for the edge cases of the loop *)

(** A float that is NaN or an infinity. *)
Definition non_finite (f : float) : Prop :=
  Prim2SF f = S754_nan \/ exists s, Prim2SF f = S754_infinity s.

(** Whether [int(i * f) = i] for every [i] below [n]. *)
Definition fixes_bins (f : float) (n : nat) : bool :=
  forallb (fun i => match new_freq f i with
                    | Ok k => (k =? Z.of_nat i)%Z
                    | Raise _ => false
                    end) (seq 0 n).

(** The bin that numpy addresses with the index [k] in [-n .. 0]. *)
Definition wrapped_bin (n : nat) (k : Z) : nat :=
  Z.to_nat ((Z.of_nat n + k) mod Z.of_nat n).

(** A decoded float that is not positive. *)
Definition SFnonpos (x : spec_float) : Prop :=
  match x with
  | S754_finite s _ _ | S754_infinity s => s = true
  | S754_zero _ | S754_nan => True
  end.

(** ** Values that are not numbers *)





(** * Properties *)

(** ** Signs of binary64 products *)

(** A decoded float that is not negative: a zero of either sign, or a
    finite number or infinity with the sign bit clear (NaN has no sign). *)
Definition SFnonneg (x : spec_float) : Prop :=
  match x with
  | S754_finite s _ _ | S754_infinity s => s = false
  | S754_zero _ | S754_nan => True
  end.

Lemma binary_round_aux_sign s m e l :
  match binary_round_aux prec emax s m e l with
  | S754_finite s' _ _ | S754_infinity s' | S754_zero s' => s' = s
  | S754_nan => True
  end.
Proof.
  unfold binary_round_aux.
  destruct (shr_fexp prec emax m e l) as [mrs e1].
  destruct (shr_fexp prec emax _ e1 loc_Exact) as [mrs2 e2].
  destruct (shr_m mrs2); try easy.
  destruct (e2 <=? emax - prec)%Z; easy.
Qed.

Lemma float_of_nat_nonneg i : SFnonneg (Prim2SF (float_of_nat i)).
Proof.
  unfold float_of_nat. rewrite of_uint63_spec.
  pose proof (Uint63.to_Z_bounded (Uint63.of_Z (Z.of_nat i))) as [Hlo _].
  unfold binary_normalize.
  destruct (Uint63Axioms.to_Z (Uint63.of_Z (Z.of_nat i))) as [|p|p]; try easy.
  unfold binary_round.
  destruct (shl_align p 0 _) as [mz ez].
  pose proof (binary_round_aux_sign false (Z.pos mz) ez loc_Exact) as H.
  destruct (binary_round_aux prec emax false (Z.pos mz) ez loc_Exact); simpl; auto.
Qed.

Lemma positive_float_sign f :
  (0 <? f)%float = true ->
  match Prim2SF f with
  | S754_finite s _ _ | S754_infinity s => s = false
  | _ => False
  end.
Proof.
  rewrite ltb_spec.
  replace (Prim2SF 0%float) with (S754_zero false) by reflexivity.
  unfold SFltb, SFcompare.
  destruct (Prim2SF f) as [s|s| |s m e]; try discriminate; destruct s; easy.
Qed.

Lemma SFmul_nonneg x y :
  SFnonneg x ->
  match y with S754_finite s _ _ | S754_infinity s => s = false | _ => False end ->
  SFnonneg (SFmul prec emax x y).
Proof.
  destruct x as [sx|sx| |sx mx ex], y as [sy|sy| |sy my ey]; simpl; try easy.
  - intros -> ->. reflexivity.
  - intros -> ->. reflexivity.
  - intros -> ->. reflexivity.
  - intros -> ->.
    pose proof (binary_round_aux_sign (xorb false false) (Z.pos (mx * my)) (ex + ey) loc_Exact) as H.
    destruct (binary_round_aux _ _ _ _ _ _); simpl in *; auto.
Qed.

Lemma SFtrunc_nonneg m e : (0 <= SFtrunc false m e)%Z.
Proof.
  unfold SFtrunc. destruct (0 <=? e)%Z.
  - apply Z.shiftl_nonneg. lia.
  - apply Z.shiftr_nonneg. lia.
Qed.

(** With a positive factor no destination index is negative. *)
Lemma new_freq_nonneg f i k :
  (0 <? f)%float = true -> new_freq f i = Ok k -> (0 <= k)%Z.
Proof.
  intros Hf. unfold new_freq, py_int.
  pose proof (SFmul_nonneg _ _ (float_of_nat_nonneg i) (positive_float_sign f Hf)) as Hn.
  rewrite mul_spec. fold (SF64mul (Prim2SF (float_of_nat i)) (Prim2SF f)).
  unfold SF64mul.
  destruct (SFmul prec emax _ _) as [s|s| |s m e] eqn:E; try discriminate.
  - intros [= <-]. lia.
  - simpl in Hn. subst s. intros [= <-]. apply SFtrunc_nonneg.
Qed.

(** ** The relocation loop *)

Lemma foldM_app {S X} (body : S -> X -> result S) s xs ys :
  foldM body s (xs ++ ys) = (s' <- foldM body s xs; foldM body s' ys).
Proof.
  revert s. induction xs as [|x xs IH]; intros s; simpl; [reflexivity|].
  destruct (body s x); simpl; auto.
Qed.

Lemma target_lt n f i d : target n f i = Some d -> d < n.
Proof.
  unfold target. destruct (new_freq f i) as [k|]; [|discriminate].
  cbv zeta.
  destruct (Z.ltb_spec k (Z.of_nat n)); [|discriminate].
  destruct (Z.leb_spec 0 k); [intros [= <-]; lia|].
  destruct (Z.leb_spec (- Z.of_nat n) k); [intros [= <-]; lia|discriminate].
Qed.

(** For a positive factor the bin written is [int(i * shift_factor)]
    itself, when it is below [freq_bins]. *)
Lemma target_positive n f i d :
  (0 <? f)%float = true ->
  target n f i = Some d <-> new_freq f i = Ok (Z.of_nat d) /\ d < n.
Proof.
  intros Hf. unfold target.
  destruct (new_freq f i) as [k|e] eqn:E.
  - pose proof (new_freq_nonneg f i k Hf E) as Hk. cbv zeta.
    destruct (Z.ltb_spec k (Z.of_nat n)), (Z.leb_spec 0 k); try lia.
    + split.
      * intros [= <-]. split; [f_equal|]; lia.
      * intros [[= ->] _]. f_equal. lia.
    + split; [discriminate|]. intros [[= ->] ?]. lia.
  - split; [discriminate|]. intros [? _]. discriminate.
Qed.

(** One iteration: the bin [target] receives row [i], the others stay. *)
Lemma relocate_spec magnitude f acc acc' i :
  length acc = length magnitude ->
  relocate magnitude f acc i = Ok acc' ->
  length acc' = length magnitude /\
  forall d, acc' !! d =
            if decide (target (length magnitude) f i = Some d)
            then magnitude !! i else acc !! d.
Proof.
  intros Hlen. unfold relocate, target. cbv zeta.
  destruct (new_freq f i) as [k|e]; simpl; [|discriminate].
  destruct (Z.ltb_spec k (Z.of_nat (length magnitude))) as [Hk|Hk].
  - unfold np_getitem. destruct (magnitude !! i) as [r|] eqn:Er; simpl; [|discriminate].
    unfold np_setitem. rewrite Hlen.
    destruct (Z.leb_spec 0 k) as [H0|H0]; simpl.
    + destruct (Z.ltb_spec k (Z.of_nat (length magnitude))); [|lia].
      intros [= <-]. rewrite length_insert. split; [done|]. intros d.
      destruct (decide (Some (Z.to_nat k) = Some d)) as [[= <-]|Hne].
      * apply list_lookup_insert_eq. lia.
      * apply list_lookup_insert_ne. congruence.
    + destruct (Z.leb_spec (- Z.of_nat (length magnitude)) k) as [Hm|Hm]; simpl.
      * destruct (Z.ltb_spec k 0); [|lia].
        intros [= <-]. rewrite length_insert. split; [done|]. intros d.
        destruct (decide (Some (Z.to_nat (Z.of_nat (length magnitude) + k)) = Some d))
          as [[= <-]|Hne].
        -- apply list_lookup_insert_eq. lia.
        -- apply list_lookup_insert_ne. congruence.
      * discriminate.
  - intros [= <-]. split; [done|]. intros d.
    destruct (decide (None = Some d)); [discriminate|done].
Qed.

(** The loop invariant: after the first [k] iterations bin [d] holds the
    row of the last iteration that wrote it, or its initial value. *)
Lemma relocate_loop magnitude f acc0 acc k :
  length acc0 = length magnitude ->
  foldM (relocate magnitude f) acc0 (seq 0 k) = Ok acc ->
  length acc = length magnitude /\
  forall d, acc !! d =
            match last_source (length magnitude) f k d with
            | Some i => magnitude !! i
            | None => acc0 !! d
            end.
Proof.
  intros Hlen. revert acc. induction k as [|k IH]; intros acc.
  - simpl. intros [= <-]. auto.
  - rewrite seq_S, foldM_app. simpl.
    destruct (foldM (relocate magnitude f) acc0 (seq 0 k)) as [acc1|] eqn:E1;
      simpl; [|discriminate].
    destruct (IH acc1 eq_refl) as [Hl1 Hacc1].
    destruct (relocate magnitude f acc1 k) as [acc2|] eqn:E2; simpl; [|discriminate].
    intros [= <-].
    destruct (relocate_spec magnitude f acc1 acc2 k Hl1 E2) as [Hl2 Hacc2].
    split; [done|]. intros d. rewrite Hacc2.
    destruct (decide (target (length magnitude) f k = Some d)); [done|apply Hacc1].
Qed.

Lemma last_source_Some n f k d i :
  last_source n f k d = Some i ->
  i < k /\ target n f i = Some d /\ forall j, i < j < k -> target n f j <> Some d.
Proof.
  induction k as [|k IH]; simpl; [discriminate|].
  destruct (decide (target n f k = Some d)) as [Ht|Ht].
  - intros [= <-]. repeat split; [lia|done|]. intros j Hj. lia.
  - intros H. destruct (IH H) as (Hi & Hti & Hlast).
    repeat split; [lia|done|]. intros j Hj.
    destruct (decide (j = k)) as [->|]; [done|]. apply Hlast. lia.
Qed.

Lemma last_source_intro n f k d i :
  i < k -> target n f i = Some d ->
  (forall j, i < j < k -> target n f j <> Some d) ->
  last_source n f k d = Some i.
Proof.
  induction k as [|k IH]; [lia|]. intros Hi Ht Hlast. simpl.
  destruct (decide (target n f k = Some d)) as [Hk|Hk].
  - destruct (decide (i = k)) as [->|]; [done|].
    exfalso. apply (Hlast k); [lia|done].
  - destruct (decide (i = k)) as [->|]; [done|].
    apply IH; [lia|done|]. intros j Hj. apply Hlast. lia.
Qed.

Lemma zeros_like_lookup magnitude d r :
  zeros_like magnitude !! d = Some r -> silent r.
Proof.
  unfold zeros_like. rewrite list_lookup_fmap.
  destruct (magnitude !! d) as [r0|]; simpl; [|discriminate].
  intros [= <-]. unfold silent. apply Forall_fmap, Forall_true. intros x. simpl. reflexivity.
Qed.

(** What the loop leaves in every bin. *)
Lemma shift_magnitude_spec magnitude f new_magnitude :
  shift_magnitude magnitude f = Ok new_magnitude ->
  length new_magnitude = length magnitude /\
  forall d, new_magnitude !! d =
            match last_source (length magnitude) f (length magnitude) d with
            | Some i => magnitude !! i
            | None => zeros_like magnitude !! d
            end.
Proof.
  unfold shift_magnitude. cbv zeta. apply relocate_loop.
  unfold zeros_like. apply length_fmap.
Qed.

(** ** Claims about the relocation loop *)

(** C2, as stated, fails: with the default factor 1.2 and 1025 bins, source
    bin 3 has [round(3.6) = 4], but the loop computes [int(3.6) = 3]: the
    unit energy of bin 3 stays in bin 3 and bin 4 receives the (empty) row
    of source bin 4. *)
Lemma formant_shift_rounded_bin_counterexample :
  exists new_magnitude,
    shift_magnitude (impulse 1025 3) factor_1_2 = Ok new_magnitude /\
    spec_round_freq factor_1_2 3 = Some 4%Z /\
    new_freq factor_1_2 3 = Ok 3%Z /\
    new_magnitude !! 3 = Some [1%Q] /\
    new_magnitude !! 4 = Some [0%Q] /\
    ~ relocated_to_rounded_bins (impulse 1025 3) factor_1_2 new_magnitude.
Proof.
  eexists. split; [vm_compute; reflexivity|].
  repeat split; try (vm_compute; reflexivity).
  intros H. specialize (H 3 4).
  assert (Hi : 3 < length (impulse 1025 3)) by (vm_compute; lia).
  assert (Hd : 4 < length (impulse 1025 3)) by (vm_compute; lia).
  specialize (H Hi eq_refl Hd). vm_compute in H. discriminate H.
Qed.

(** C2, amended: for a positive factor, when the loop completes, the
    destination of source bin [i] is [int(i * factor)] (truncation, not
    rounding). The output has the bins of the input; bin [d] holds the row of
    source bin [i] when [int(i * factor) = d] and no later source bin has the
    same destination; a bin with energy holds the row of a source bin
    whose destination it is, so that a source bin whose destination is not
    a bin contributes nowhere; and a single-bin impulse at bin [i] leaves no
    energy in any bin other than [int(i * factor)]. *)
Theorem formant_shift_relocates_truncated
    (magnitude : list row) (f : float) (new_magnitude : list row) :
  (0 <? f)%float = true ->
  shift_magnitude magnitude f = Ok new_magnitude ->
  length new_magnitude = length magnitude /\
  (forall i d, i < length magnitude -> d < length magnitude ->
     new_freq f i = Ok (Z.of_nat d) ->
     (forall j, i < j < length magnitude -> new_freq f j <> Ok (Z.of_nat d)) ->
     new_magnitude !! d = magnitude !! i) /\
  (forall d r, new_magnitude !! d = Some r -> ~ silent r ->
     exists i, i < length magnitude /\ new_freq f i = Ok (Z.of_nat d) /\
               magnitude !! i = Some r) /\
  (forall i, (forall j r, j <> i -> magnitude !! j = Some r -> silent r) ->
     forall d r, new_freq f i <> Ok (Z.of_nat d) ->
       new_magnitude !! d = Some r -> silent r).
Proof.
  intros Hf Hloop.
  destruct (shift_magnitude_spec _ _ _ Hloop) as [Hlen Hspec].
  assert (Hsrc : forall d r, new_magnitude !! d = Some r -> silent r \/
            exists i, i < length magnitude /\ new_freq f i = Ok (Z.of_nat d) /\
                      magnitude !! i = Some r).
  { intros d r Hd. rewrite Hspec in Hd.
    destruct (last_source _ f _ d) as [i|] eqn:El.
    - right. apply last_source_Some in El as (Hi & Ht & _).
      apply (target_positive _ _ _ _ Hf) in Ht as [Hn _]. eauto.
    - left. eapply zeros_like_lookup; eauto. }
  split; [done|]. split; [|split].
  - intros i d Hi Hd Hn Hlast. rewrite Hspec.
    rewrite (last_source_intro _ f _ d i); [done|done| |].
    + apply (target_positive _ _ _ _ Hf). done.
    + intros j Hj Ht. apply (target_positive _ _ _ _ Hf) in Ht as [Ht _].
      exact (Hlast j Hj Ht).
  - intros d r Hd Hr. destruct (Hsrc d r Hd) as [Hs|Hs]; [contradiction|done].
  - intros i Himp d r Hne Hd.
    destruct (Hsrc d r Hd) as [Hs|(j & Hj & Hn & Hm)]; [done|].
    apply (Himp j r); [|done]. intros ->. contradiction.
Qed.

Lemma formant_shift_relocates_truncated_witness :
  (0 <? factor_1_2)%float = true /\
  shift_magnitude (impulse 6 3) factor_1_2 = Ok (impulse 6 3) /\
  length (impulse 6 3) = length (impulse 6 3) /\
  (forall i d, i < length (impulse 6 3) -> d < length (impulse 6 3) ->
     new_freq factor_1_2 i = Ok (Z.of_nat d) ->
     (forall j, i < j < length (impulse 6 3) -> new_freq factor_1_2 j <> Ok (Z.of_nat d)) ->
     impulse 6 3 !! d = impulse 6 3 !! i) /\
  (forall d r, impulse 6 3 !! d = Some r -> ~ silent r ->
     exists i, i < length (impulse 6 3) /\ new_freq factor_1_2 i = Ok (Z.of_nat d) /\
               impulse 6 3 !! i = Some r) /\
  (forall i, (forall j r, j <> i -> impulse 6 3 !! j = Some r -> silent r) ->
     forall d r, new_freq factor_1_2 i <> Ok (Z.of_nat d) ->
       impulse 6 3 !! d = Some r -> silent r).
Proof.
  split; [reflexivity|]. split; [reflexivity|].
  apply (formant_shift_relocates_truncated (impulse 6 3) factor_1_2 (impulse 6 3));
    reflexivity.
Defined.

(** Outside the domain of the claims: a negative factor gives negative
    indices, which numpy counts from the end instead of dropping. *)
Lemma negative_factor_wraps :
  shift_magnitude (ramp 5) (-0.5)%float = Ok [[2%Q]; [0%Q]; [0%Q]; [5%Q]; [4%Q]].
Proof. reflexivity. Qed.

(** C10: for a factor in (0, 1), when the loop completes and several source
    bins have the destination bin [d], bin [d] holds the row of the one with
    the largest index: the later relocation overwrote the earlier ones. *)
Theorem formant_shift_collision_last_wins
    (magnitude : list row) (f : float) (new_magnitude : list row) (i d : nat) :
  (0 <? f)%float = true -> (f <? 1)%float = true ->
  shift_magnitude magnitude f = Ok new_magnitude ->
  i < length magnitude -> d < length magnitude ->
  new_freq f i = Ok (Z.of_nat d) ->
  (forall j, i < j < length magnitude -> new_freq f j <> Ok (Z.of_nat d)) ->
  new_magnitude !! d = magnitude !! i.
Proof.
  intros Hf _ Hloop Hi Hd Hn Hlast.
  destruct (shift_magnitude_spec _ _ _ Hloop) as [_ Hspec].
  rewrite Hspec, (last_source_intro _ f _ d i); [done|done| |].
  - apply (target_positive _ _ _ _ Hf). done.
  - intros j Hj Ht. apply (target_positive _ _ _ _ Hf) in Ht as [Ht _].
    exact (Hlast j Hj Ht).
Qed.

Lemma formant_shift_collision_last_wins_witness :
  (0 <? factor_0_8)%float = true /\ (factor_0_8 <? 1)%float = true /\
  shift_magnitude (ramp 6) factor_0_8 = Ok [[2%Q]; [3%Q]; [4%Q]; [5%Q]; [6%Q]; [0%Q]] /\
  1 < length (ramp 6) /\ 0 < length (ramp 6) /\
  new_freq factor_0_8 0 = Ok 0%Z /\
  new_freq factor_0_8 1 = Ok (Z.of_nat 0) /\
  (forall j, 1 < j < length (ramp 6) -> new_freq factor_0_8 j <> Ok (Z.of_nat 0)) /\
  [[2%Q]; [3%Q]; [4%Q]; [5%Q]; [6%Q]; [0%Q]] !! 0 = ramp 6 !! 1.
Proof.
  assert (Hlast : forall j, 1 < j < length (ramp 6) ->
                            new_freq factor_0_8 j <> Ok (Z.of_nat 0)).
  { intros j [Hlo Hhi]. simpl in Hhi.
    do 6 (destruct j as [|j]; [first [lia | vm_compute; discriminate]|]). lia. }
  do 2 (split; [reflexivity|]). split; [reflexivity|].
  do 2 (split; [simpl; lia|]). do 2 (split; [reflexivity|]).
  split; [exact Hlast|].
  apply (formant_shift_collision_last_wins (ramp 6) factor_0_8 _ 1 0);
    try reflexivity; try (simpl; lia); exact Hlast.
Defined.

(** ** Lengths *)

Lemma fix_length_length y size : length (fix_length y size) = size.
Proof.
  unfold fix_length. rewrite length_app, length_take, length_replicate. lia.
Qed.

(** C4: whenever the pitch shift returns a signal, it has exactly the
    number of samples of its input, for every input and every number of
    semitones. *)
Theorem pitch_shift_preserves_length
    (L : Libs) (audio : list Q) (sr : Z) (semitones : float) (out : list Q) :
  pitch_shift L audio sr semitones = Ok out -> length out = length audio.
Proof.
  unfold pitch_shift, librosa_pitch_shift.
  destruct (lib_stretch_resample L audio sr semitones) as [y|e]; simpl; [|discriminate].
  intros [= <-]. apply fix_length_length.
Qed.

Lemma pitch_shift_preserves_length_witness :
  pitch_shift Demo.libs [1%Q; 2%Q; 3%Q] 22050 4 = Ok [1%Q; 2%Q; 3%Q] /\
  length [1%Q; 2%Q; 3%Q] = length [1%Q; 2%Q; 3%Q].
Proof.
  split; [reflexivity|].
  apply (pitch_shift_preserves_length Demo.libs [1%Q; 2%Q; 3%Q] 22050 4 [1%Q; 2%Q; 3%Q]).
  reflexivity.
Defined.

Lemma shift_magnitude_rows magnitude f new_magnitude c :
  Forall (fun r : row => length r = c) magnitude ->
  shift_magnitude magnitude f = Ok new_magnitude ->
  Forall (fun r : row => length r = c) new_magnitude.
Proof.
  intros Hrows Hloop.
  destruct (shift_magnitude_spec _ _ _ Hloop) as [_ Hspec].
  rewrite Forall_lookup in Hrows. apply Forall_lookup. intros d r Hd.
  rewrite Hspec in Hd.
  destruct (last_source _ f _ d) as [i|]; [eauto|].
  unfold zeros_like in Hd. rewrite list_lookup_fmap in Hd.
  destruct (magnitude !! d) as [r0|] eqn:E0; simpl in Hd; [|discriminate].
  injection Hd as <-. rewrite length_fmap. eauto.
Qed.

Lemma formant_shift_length (L : Libs) audio sr f out :
  librosa_shapes L ->
  formant_shift L audio sr f = Ok out ->
  length out = 512 * (length audio / 512).
Proof.
  intros [Hstft Histft] Hout. unfold formant_shift in Hout.
  destruct (lib_stft L audio 512) as [D|e] eqn:ED; simpl in Hout; [|discriminate].
  destruct (Hstft _ _ _ ED) as [Hbins Hrows].
  destruct (shift_magnitude _ f) as [nm|e] eqn:En; simpl in Hout; [|discriminate].
  set (c := S (length audio / 512)) in *.
  assert (Hmag : Forall (fun r : row => length r = c)
                   ((fun r : list (complex L) => np_abs L <$> r) <$> D)).
  { apply Forall_fmap. eapply Forall_impl; [exact Hrows|].
    intros r Hr. simpl. rewrite length_fmap. done. }
  pose proof (shift_magnitude_rows _ _ _ _ Hmag En) as Hnm.
  destruct (shift_magnitude_spec _ _ _ En) as [Hlen _].
  rewrite length_fmap, Hbins in Hlen.
  destruct nm as [|n0 nm']; [discriminate|].
  destruct D as [|d0 D']; [discriminate|].
  apply Forall_cons in Hnm as [Hn0 _]. apply Forall_cons in Hrows as [Hd0 _].
  rewrite (Histft _ _ _ _ Hout eq_refl).
  rewrite length_zip_with, length_fmap, Hn0, Hd0. unfold c.
  f_equal. lia.
Qed.

Lemma flat_map_replicate_length {A} hop (l : list A) :
  length (flat_map (replicate hop) l) = hop * length l.
Proof.
  induction l as [|x l IH]; simpl; [lia|].
  rewrite length_app, length_replicate, IH. lia.
Qed.

Lemma Ok_inj {A} (a b : A) : Ok a = Ok b -> a = b.
Proof. congruence. Qed.

(** The demonstration instance has librosa's shapes. *)
Lemma Demo_shapes : librosa_shapes Demo.libs.
Proof.
  split.
  - intros y hop D H. change (Demo.stft y hop = Ok D) in H.
    unfold Demo.stft in H. apply Ok_inj in H. subst D. split.
    + cbn [length]. rewrite length_replicate. done.
    + constructor.
      * rewrite length_fmap, length_seq. done.
      * apply Forall_replicate. apply length_replicate.
  - intros D hop y r. simpl. unfold Demo.istft.
    destruct D as [|r0 D]; [discriminate|].
    intros [= <-] [= <-]. rewrite flat_map_replicate_length, length_take. lia.
Qed.

(** C5, as stated, fails: a signal of 1100 samples comes back from the
    formant shift with 1024 samples, because [librosa.istft] is called
    without [length=] and returns whole hops only. *)
Lemma formant_shift_length_counterexample :
  librosa_shapes Demo.libs /\
  length Demo.square = 1100 /\
  exists out,
    formant_shift Demo.libs Demo.square 22050 factor_1_2 = Ok out /\
    length out = 1024 /\
    length out <> length Demo.square.
Proof.
  split; [exact Demo_shapes|]. split; [reflexivity|].
  eexists. split; [vm_compute; reflexivity|]. split; [reflexivity|].
  vm_compute. lia.
Qed.

(** C5, amended: whenever the formant shift returns a signal, it has
    [512 * (n // 512)] samples for an input of [n] samples: the input length
    rounded down to a whole number of hops, which is the input length exactly
    when that is a multiple of 512. *)
Theorem formant_shift_length_whole_hops
    (L : Libs) (audio : list Q) (sr : Z) (f : float) (out : list Q) :
  librosa_shapes L ->
  formant_shift L audio sr f = Ok out ->
  length out = 512 * (length audio / 512) /\
  (length out = length audio <-> length audio mod 512 = 0).
Proof.
  intros HL Hout. pose proof (formant_shift_length L audio sr f out HL Hout) as Hlen.
  split; [done|]. rewrite Hlen.
  pose proof (Nat.div_mod_eq (length audio) 512). lia.
Qed.

Lemma formant_shift_length_whole_hops_witness :
  librosa_shapes Demo.libs /\
  exists out,
    formant_shift Demo.libs Demo.square 22050 factor_1_2 = Ok out /\
    length out = 512 * (length Demo.square / 512) /\
    (length out = length Demo.square <-> length Demo.square mod 512 = 0).
Proof.
  split; [exact Demo_shapes|].
  eexists. split; [vm_compute; reflexivity|].
  apply (formant_shift_length_whole_hops Demo.libs Demo.square 22050 factor_1_2);
    [exact Demo_shapes|vm_compute; reflexivity].
Defined.

(** ** The files a conversion writes *)

(** A successful run of the [try] block: the file was found and decoded at
    the rate of the converter, the four steps returned [audio], and
    [audio] was stored under a fresh name with that rate. *)
Lemma convert_try_success (L : Libs) self path ps ff b w out w' :
  convert_try L self path ps ff b w = (Ok out, w') ->
  exists f0 y audio name,
    files w !! path = Some f0 /\
    lib_decode L f0 (sample_rate self) = Ok y /\
    convert_audio L y (sample_rate self) ps ff b = Ok audio /\
    lib_mkstemp L (temp_count w) ".wav" = Ok name /\
    out = Some name /\
    files w' = <[name := {| file_rate := sample_rate self; file_samples := audio |}]> (files w).
Proof.
  unfold convert_try, bind, librosa_load, lift, NamedTemporaryFile, sf_write, ret, store.
  destruct (files w !! path) as [f0|]; [|discriminate].
  destruct (lib_decode L f0 (sample_rate self)) as [y|e] eqn:Ey; simpl; [|discriminate].
  destruct (convert_audio L y (sample_rate self) ps ff b) as [audio|e] eqn:Ea;
    [|discriminate].
  destruct (lib_mkstemp L (temp_count w) ".wav") as [name|e]; [|discriminate].
  destruct (lib_sf_accepts L audio (sample_rate self)) as [[]|e]; [|discriminate].
  intros [= <- <-]. exists f0, y, audio, name. simpl. done.
Qed.

Lemma convert_success (L : Libs) self path ps ff b w name w' :
  convert_to_female_voice L self path ps ff b w = (Ok (Some name), w') ->
  convert_try L self path ps ff b w = (Ok (Some name), w').
Proof.
  unfold convert_to_female_voice, try_except.
  destruct (convert_try L self path ps ff b w) as [[out|e] w1]; [done|].
  unfold bind, print, ret. discriminate.
Qed.

Lemma process_voice_success (L : Libs) input ps ff b w out msg w' :
  process_voice L input ps ff b w = (Ok (Some out, msg), w') ->
  exists src path w1,
    input = Some src /\
    input_path L src w = (Ok path, w1) /\
    convert_to_female_voice L converter path ps ff b w1 = (Ok (Some out), w') /\
    msg = msg_done.
Proof.
  unfold process_voice. destruct input as [src|]; [|unfold ret; discriminate].
  unfold try_except, process_try, bind.
  destruct (input_path L src w) as [[path|e] w1] eqn:Ei; [|unfold ret; discriminate].
  destruct (convert_to_female_voice L converter path ps ff b w1) as [[[p|]|e] w2] eqn:Ec;
    unfold ret; try discriminate.
  destruct (decide (p = "")); [discriminate|].
  intros [= <- <- <-]. exists src, path, w1. done.
Qed.

(** C6, as stated, fails: a recording handed over at 44100 Hz is converted
    with success, and the file written has the rate 22050 Hz. *)
Lemma output_rate_counterexample :
  exists w' f,
    process_voice Demo.libs (Some (Recorded 44100 Demo.square))
      4 factor_1_2 brightness_1_1 Demo.world0
    = (Ok (Some "/tmp/tmp1.wav", msg_done), w') /\
    files w' !! "/tmp/tmp1.wav" = Some f /\
    file_rate f = 22050%Z /\
    file_rate f <> 44100%Z.
Proof.
  eexists. eexists. split; [vm_compute; reflexivity|].
  split; [vm_compute; reflexivity|]. split; [reflexivity|]. simpl. lia.
Qed.

(** C6, amended: for every successful conversion the file returned holds
    samples at the fixed rate of the converter, 22050 Hz: the rate to which
    [librosa.load] resampled the input file, whatever the rate of the audio
    that was handed over. *)
Theorem output_rate_is_converter_rate
    (L : Libs) (input : option audio_source) (ps ff b : float)
    (w w' : World) (out msg : string) :
  process_voice L input ps ff b w = (Ok (Some out, msg), w') ->
  exists f path w1 f0 y,
    files w1 !! path = Some f0 /\
    lib_decode L f0 22050 = Ok y /\
    files w' !! out = Some f /\
    file_rate f = sample_rate converter /\
    file_rate f = 22050%Z.
Proof.
  intros H.
  apply process_voice_success in H as (src & path & w1 & _ & _ & Hc & _).
  apply convert_success, convert_try_success in Hc
    as (f0 & y & audio & name & Hf0 & Hy & _ & _ & [= <-] & Hfiles).
  eexists _, path, w1, f0, y.
  split; [exact Hf0|]. split; [exact Hy|].
  rewrite Hfiles, lookup_insert_eq. done.
Qed.

Lemma output_rate_is_converter_rate_witness :
  exists w',
    process_voice Demo.libs (Some (Recorded 44100 Demo.square))
      4 factor_1_2 brightness_1_1 Demo.world0
    = (Ok (Some "/tmp/tmp1.wav", msg_done), w') /\
    exists f path w1 f0 y,
      files w1 !! path = Some f0 /\
      lib_decode Demo.libs f0 22050 = Ok y /\
      files w' !! "/tmp/tmp1.wav" = Some f /\
      file_rate f = sample_rate converter /\
      file_rate f = 22050%Z.
Proof.
  eexists. split; [vm_compute; reflexivity|].
  apply (output_rate_is_converter_rate Demo.libs (Some (Recorded 44100 Demo.square))
           4 factor_1_2 brightness_1_1 Demo.world0 _ "/tmp/tmp1.wav" msg_done).
  vm_compute; reflexivity.
Defined.

(** ** Normalization *)

Lemma Qabs_zero_iff s : (Qabs s == 0)%Q <-> (s == 0)%Q.
Proof.
  split.
  - intros H. assert (Hle : (Qabs s <= 0)%Q) by (rewrite H; apply Qle_refl).
    apply Qabs_Qle_condition in Hle as [Hlo Hhi]. apply Qle_antisym; auto.
  - intros H. rewrite (Qabs_wd _ _ H). reflexivity.
Qed.

Lemma peak_nonneg y : (0 <= peak y)%Q.
Proof.
  destruct y as [|s y]; simpl; [apply Qle_refl|].
  eapply Qle_trans; [apply Qabs_nonneg|apply Q.le_max_l].
Qed.

Lemma peak_ge y : Forall (fun s => (Qabs s <= peak y)%Q) y.
Proof.
  induction y as [|s y IH]; constructor; simpl.
  - apply Q.le_max_l.
  - eapply Forall_impl; [exact IH|]. intros t Ht. simpl in Ht.
    eapply Qle_trans; [exact Ht|apply Q.le_max_r].
Qed.

Lemma peak_le y m :
  (0 <= m)%Q -> Forall (fun s => (Qabs s <= m)%Q) y -> (peak y <= m)%Q.
Proof.
  intros Hm. induction 1 as [|s y Hs _ IH]; simpl; [done|].
  apply Q.max_lub; done.
Qed.

Lemma peak_zero_silent y : (peak y == 0)%Q <-> silent y.
Proof.
  split.
  - intros Hp. eapply Forall_impl; [apply peak_ge|]. intros s Hs. simpl in Hs.
    apply Qabs_zero_iff, Qle_antisym; [|apply Qabs_nonneg]. rewrite <- Hp. done.
  - intros Hs. apply Qle_antisym; [|apply peak_nonneg].
    apply peak_le; [apply Qle_refl|]. eapply Forall_impl; [exact Hs|].
    intros s H0. simpl in H0. apply Qabs_zero_iff in H0. rewrite H0. apply Qle_refl.
Qed.

(** The peak of a signal that is not silent is the size of one of its
    samples. *)
Lemma peak_attained y :
  ~ silent y -> Exists (fun s => (Qabs s == peak y)%Q) y.
Proof.
  induction y as [|s y IH]; intros Hn.
  - exfalso. apply Hn. constructor.
  - simpl. destruct (Q.max_spec (Qabs s) (peak y)) as [[Hlt Hm]|[Hle Hm]].
    + apply Exists_cons_tl.
      assert (Hy : ~ silent y).
      { intros Hy. apply peak_zero_silent in Hy. rewrite Hy in Hlt.
        pose proof (Qabs_nonneg s) as H0. apply Qlt_not_le in Hlt. contradiction. }
      eapply Exists_impl; [exact (IH Hy)|]. intros t Ht. simpl in Ht.
      rewrite Ht. symmetry. exact Hm.
    + apply Exists_cons_hd. symmetry. exact Hm.
Qed.

Lemma Qabs_div_peak s p : (0 < p)%Q -> (Qabs (s / p) == Qabs s / p)%Q.
Proof.
  intros Hp. unfold Qdiv. rewrite Qabs_Qmult, Qabs_Qinv.
  rewrite (Qabs_pos p); [reflexivity|]. apply Qlt_le_weak. done.
Qed.

(** No sample of the normalized signal exceeds 1 in absolute value. *)
Lemma normalize_bounded x : Forall (fun s => (Qabs s <= 1)%Q) (librosa_normalize x).
Proof.
  unfold librosa_normalize. cbv zeta.
  destruct (Qeq_bool (peak x) 0) eqn:E.
  - apply Qeq_bool_iff, peak_zero_silent in E.
    eapply Forall_impl; [exact E|]. intros s Hs. simpl in Hs.
    apply Qabs_zero_iff in Hs. rewrite Hs. discriminate.
  - apply Qeq_bool_neq in E.
    assert (Hp : (0 < peak x)%Q).
    { pose proof (peak_nonneg x) as H0. apply Qle_lteq in H0 as [H0|H0]; [done|].
      exfalso. apply E. symmetry. done. }
    apply Forall_fmap. eapply Forall_impl; [apply peak_ge|].
    intros s Hs. unfold compose. cbv beta in *. rewrite Qabs_div_peak by done.
    apply Qle_shift_div_r; [done|]. rewrite Qmult_1_l. done.
Qed.

(** The normalized form of a signal that is not silent has peak 1. *)
Lemma normalize_peak x : ~ silent x -> (peak (librosa_normalize x) == 1)%Q.
Proof.
  intros Hn. apply Qle_antisym.
  - apply peak_le; [discriminate|apply normalize_bounded].
  - unfold librosa_normalize. cbv zeta.
    destruct (Qeq_bool (peak x) 0) eqn:E.
    { apply Qeq_bool_iff, peak_zero_silent in E. contradiction. }
    apply Qeq_bool_neq in E.
    assert (Hp : (0 < peak x)%Q).
    { pose proof (peak_nonneg x) as H0. apply Qle_lteq in H0 as [H0|H0]; [done|].
      exfalso. apply E. symmetry. done. }
    pose proof (peak_attained x Hn) as Hex.
    apply Exists_exists in Hex as (s & Hin & Hs).
    pose proof (peak_ge ((fun s0 => (s0 / peak x)%Q) <$> x)) as Hge.
    rewrite Forall_forall in Hge.
    specialize (Hge (s / peak x)%Q).
    eapply Qle_trans; [|apply Hge].
    + rewrite Qabs_div_peak by done. rewrite Hs.
      unfold Qdiv. rewrite Qmult_inv_r by done. apply Qle_refl.
    + apply list_elem_of_fmap. exists s. done.
Qed.


(** C3: after a successful conversion the file written holds the
    normalized signal: none of its samples exceeds 1 in absolute value, and
    when the signal that entered the normalization had a sample other than
    zero, its peak is exactly 1. *)
Theorem normalized_output_bounded
    (L : Libs) (self : VoiceConverter) (path : string) (ps ff b : float)
    (w w' : World) (name : string) :
  convert_to_female_voice L self path ps ff b w = (Ok (Some name), w') ->
  exists f0 y x out,
    files w !! path = Some f0 /\
    lib_decode L f0 (sample_rate self) = Ok y /\
    convert_steps L y (sample_rate self) ps ff b = Ok x /\
    files w' !! name = Some {| file_rate := sample_rate self; file_samples := out |} /\
    Forall (fun s => (Qabs s <= 1)%Q) out /\
    (Exists (fun s => ~ (s == 0)%Q) x -> (peak out == 1)%Q).
Proof.
  intros H.
  apply convert_success, convert_try_success in H
    as (f0 & y & audio & name' & Hf & Hy & Ha & _ & [= <-] & Hfiles).
  unfold convert_audio in Ha.
  destruct (convert_steps L y (sample_rate self) ps ff b) as [x|e] eqn:Ex;
    simpl in Ha; [|discriminate].
  apply Ok_inj in Ha. subst audio.
  exists f0, y, x, (librosa_normalize x).
  repeat split; try done.
  - rewrite Hfiles. apply lookup_insert_eq.
  - apply normalize_bounded.
  - intros Hex. apply normalize_peak. intros Hs.
    apply Exists_exists in Hex as (s & Hin & Hne).
    unfold silent in Hs. rewrite Forall_forall in Hs. exact (Hne (Hs s Hin)).
Qed.

Lemma normalized_output_bounded_witness :
  exists w',
    convert_to_female_voice Demo.libs converter "/in.wav"
      4 factor_1_2 brightness_1_1 Demo.world_in
    = (Ok (Some "/tmp/tmp0.wav"), w') /\
    exists f0 y x out,
      files Demo.world_in !! "/in.wav" = Some f0 /\
      lib_decode Demo.libs f0 (sample_rate converter) = Ok y /\
      convert_steps Demo.libs y (sample_rate converter) 4 factor_1_2 brightness_1_1
        = Ok x /\
      files w' !! "/tmp/tmp0.wav"
        = Some {| file_rate := sample_rate converter; file_samples := out |} /\
      Forall (fun s => (Qabs s <= 1)%Q) out /\
      (Exists (fun s => ~ (s == 0)%Q) x -> (peak out == 1)%Q).
Proof.
  eexists. split; [vm_compute; reflexivity|].
  apply (normalized_output_bounded Demo.libs converter "/in.wav"
           4 factor_1_2 brightness_1_1 Demo.world_in).
  vm_compute; reflexivity.
Defined.

(** ** Silence *)















(** ** The brightness gate *)



Lemma process_voice_gate (L : Libs) input ps ff b1 b2 w :
  (1 <? b1)%float = (1 <? b2)%float ->
  process_voice L input ps ff b1 w = process_voice L input ps ff b2 w.
Proof.
  intros Hb. destruct input as [src|]; [|reflexivity].
  unfold process_voice, process_try, convert_to_female_voice, convert_try,
    convert_audio, convert_steps.
  rewrite Hb. reflexivity.
Qed.



(** ** Failures *)

Lemma msg_error_nonempty e : msg_error e <> "".
Proof. unfold msg_error. simpl. discriminate. Qed.

Lemma msg_fixed_nonempty : msg_no_input <> "" /\ msg_failed <> "" /\ msg_done <> "".
Proof. unfold msg_no_input, msg_failed, msg_done. repeat split; discriminate. Qed.

(** [convert_to_female_voice] catches whatever its [try] block raises:
    it prints the error and returns [None]. *)
Lemma convert_never_raises (L : Libs) self path ps ff b w :
  exists out w', convert_to_female_voice L self path ps ff b w = (Ok out, w') /\
    (forall e w1, convert_try L self path ps ff b w = (Raise e, w1) ->
       out = None /\
       stdout w' = stdout w1 ++ ["변환 중 오류 발생: " +:+ exn_str e] /\
       files w' = files w1).
Proof.
  unfold convert_to_female_voice, try_except.
  destruct (convert_try L self path ps ff b w) as [[out|e] w1].
  - exists out, w1. split; [done|]. intros e w2 [=].
  - unfold bind, print, ret. eexists _, _. split; [reflexivity|].
    intros e' w2 [= <- <-]. done.
Qed.

(** X15: [process_voice] always returns a pair and never raises. With no
    audio it returns no path and asks for a recording; when preparing the
    input file raises, or when any step of the conversion raises, it
    returns no path together with a diagnostic that is not empty. Which
    inputs make a library call raise is decided by the libraries: the
    program has no check of its own on the samples or the sample rate. *)
Theorem process_voice_reports_failure
    (L : Libs) (input : option audio_source) (ps ff b : float) (w : World) :
  exists out msg w',
    process_voice L input ps ff b w = (Ok (out, msg), w') /\
    msg <> "" /\
    (input = None -> out = None /\ msg = msg_no_input) /\
    (forall src e w1, input = Some src ->
       input_path L src w = (Raise e, w1) ->
       out = None /\ msg = msg_error e) /\
    (forall src path w1 e w2, input = Some src ->
       input_path L src w = (Ok path, w1) ->
       convert_try L converter path ps ff b w1 = (Raise e, w2) ->
       out = None /\ msg = msg_failed) /\
    (out = None \/ msg = msg_done).
Proof.
  destruct msg_fixed_nonempty as (Hm1 & Hm2 & Hm3).
  destruct input as [src|]; unfold process_voice.
  2:{ exists None, msg_no_input, w. unfold ret.
      split; [reflexivity|]. split; [exact Hm1|]. split; [done|].
      split; [congruence|]. split; [congruence|]. left. done. }
  unfold try_except, process_try, bind.
  destruct (input_path L src w) as [[path|e0] w1] eqn:Ei.
  - destruct (convert_never_raises L converter path ps ff b w1)
      as (out & w2 & Hc & Hraise).
    rewrite Hc.
    assert (Hout : forall src' path' w1' e' w2',
              Some src = Some src' -> input_path L src' w = (Ok path', w1') ->
              convert_try L converter path' ps ff b w1' = (Raise e', w2') ->
              out = None).
    { intros src' path' w1' e' w2' [= <-] Hi Hr. rewrite Ei in Hi.
      injection Hi as <- <-. apply (Hraise _ _ Hr). }
    destruct out as [p|].
    + destruct (decide (p = "")) as [->|Hp]; unfold ret.
      * exists None, msg_failed, w2.
        split; [reflexivity|]. split; [exact Hm2|]. split; [congruence|].
        split; [congruence|]. split; [done|]. left. done.
      * exists (Some p), msg_done, w2.
        split; [reflexivity|]. split; [exact Hm3|]. split; [congruence|].
        split; [congruence|]. split; [|right; done].
        intros src' path' w1' e' w2' H1 H2 H3.
        discriminate (Hout _ _ _ _ _ H1 H2 H3).
    + unfold ret. exists None, msg_failed, w2.
      split; [reflexivity|]. split; [exact Hm2|]. split; [congruence|].
      split; [congruence|]. split; [done|]. left. done.
  - unfold ret. exists None, (msg_error e0), w1.
    split; [reflexivity|]. split; [apply msg_error_nonempty|].
    split; [congruence|]. split; [|split; [congruence|left; done]].
    intros src' e' w1' [= <-] Hi. rewrite Ei in Hi. injection Hi as <- <-. done.
Qed.

(** Three failing inputs on the demonstration instance: a recording with a
    negative sample rate is refused when it is written, an empty recording
    is refused by the filter, and a path without a file is refused when it
    is loaded. None raises, each returns no path and a diagnostic. *)
Lemma process_voice_failure_examples :
  fst (process_voice Demo.libs (Some (Recorded (-1) Demo.square)) 4 factor_1_2
         brightness_1_1 Demo.world0)
  = Ok (None, msg_error (Exception "struct.error" "argument out of range")) /\
  fst (process_voice Demo.libs (Some (Recorded 22050 [])) 4 factor_1_2
         brightness_1_1 Demo.world0)
  = Ok (None, msg_failed) /\
  fst (process_voice Demo.libs (Some (FilePath "/missing.wav")) 4 factor_1_2
         brightness_1_1 Demo.world0)
  = Ok (None, msg_failed).
Proof. repeat split; vm_compute; reflexivity. Qed.

(** * Further properties of the code *)

(** ** The relocation loop: shape, completion, edge factors *)

(** Every iteration of a completed loop computed its index, and that
    index was not below [-freq_bins]. *)
Lemma relocate_loop_steps magnitude f acc0 acc k :
  length acc0 = length magnitude ->
  foldM (relocate magnitude f) acc0 (seq 0 k) = Ok acc ->
  forall i, i < k ->
    exists j, new_freq f i = Ok j /\
              ((j < Z.of_nat (length magnitude))%Z ->
               (- Z.of_nat (length magnitude) <= j)%Z /\ i < length magnitude).
Proof.
  intros Hlen. revert acc. induction k as [|k IH]; intros acc Hk i Hi; [lia|].
  rewrite seq_S, foldM_app in Hk. simpl in Hk.
  destruct (foldM (relocate magnitude f) acc0 (seq 0 k)) as [acc1|] eqn:E1;
    simpl in Hk; [|discriminate].
  destruct (decide (i = k)) as [->|Hne]; [|apply (IH acc1 eq_refl); lia].
  destruct (relocate_loop magnitude f acc0 acc1 k Hlen E1) as [Hl1 _].
  destruct (relocate magnitude f acc1 k) as [acc2|] eqn:E2; simpl in Hk; [|discriminate].
  unfold relocate in E2. cbv zeta in E2.
  destruct (new_freq f k) as [j|e]; simpl in E2; [|discriminate].
  exists j. split; [done|]. intros Hj.
  destruct (Z.ltb_spec j (Z.of_nat (length magnitude))); [|lia].
  unfold np_getitem in E2. destruct (magnitude !! k) as [r|] eqn:Er; simpl in E2;
    [|discriminate].
  apply lookup_lt_Some in Er. split; [|done].
  unfold np_setitem in E2. rewrite Hl1 in E2.
  destruct (Z.leb_spec 0 j); [lia|]. simpl in E2.
  destruct (Z.leb_spec (- Z.of_nat (length magnitude)) j); [done|discriminate].
Qed.

(** With indices that are defined and not negative the loop completes. *)
Lemma relocate_loop_completes magnitude f acc0 k :
  length acc0 = length magnitude -> k <= length magnitude ->
  (forall i, i < k -> exists j, new_freq f i = Ok j /\ (0 <= j)%Z) ->
  exists acc, foldM (relocate magnitude f) acc0 (seq 0 k) = Ok acc.
Proof.
  intros Hlen. induction k as [|k IH]; intros Hk Hall; [simpl; eauto|].
  destruct IH as [acc1 E1]; [lia|intros i Hi; apply Hall; lia|].
  destruct (relocate_loop magnitude f acc0 acc1 k Hlen E1) as [Hl1 _].
  rewrite seq_S, foldM_app, E1. simpl.
  destruct (Hall k) as (j & Hj & Hpos); [lia|].
  unfold relocate. cbv zeta. rewrite Hj. simpl.
  destruct (Z.ltb_spec j (Z.of_nat (length magnitude))); [|eauto].
  destruct (lookup_lt_is_Some_2 magnitude k) as [r Hr]; [lia|].
  unfold np_getitem. rewrite Hr. simpl. unfold np_setitem. rewrite Hl1.
  destruct (Z.leb_spec 0 j); [|lia]. destruct (Z.ltb_spec j (Z.of_nat (length magnitude)));
    [|lia]. simpl. eauto.
Qed.

(** X1: the completed loop keeps the shape of the spectrogram: as many
    bins, and as many frames in every bin when the input is rectangular. *)
Theorem shift_magnitude_keeps_shape
    (magnitude : list row) (f : float) (new_magnitude : list row) (frames : nat) :
  shift_magnitude magnitude f = Ok new_magnitude ->
  Forall (fun r : row => length r = frames) magnitude ->
  length new_magnitude = length magnitude /\
  Forall (fun r : row => length r = frames) new_magnitude.
Proof.
  intros Hloop Hrows. split.
  - apply (shift_magnitude_spec _ _ _ Hloop).
  - eapply shift_magnitude_rows; eauto.
Qed.

Lemma shift_magnitude_keeps_shape_witness :
  shift_magnitude (ramp 6) factor_0_8 = Ok [[2%Q]; [3%Q]; [4%Q]; [5%Q]; [6%Q]; [0%Q]] /\
  Forall (fun r : row => length r = 1) (ramp 6) /\
  length [[2%Q]; [3%Q]; [4%Q]; [5%Q]; [6%Q]; [0%Q]] = length (ramp 6) /\
  Forall (fun r : row => length r = 1) [[2%Q]; [3%Q]; [4%Q]; [5%Q]; [6%Q]; [0%Q]].
Proof.
  assert (Hr : Forall (fun r : row => length r = 1) (ramp 6)).
  { repeat constructor. }
  split; [reflexivity|]. split; [exact Hr|].
  apply (shift_magnitude_keeps_shape (ramp 6) factor_0_8 _ 1); [reflexivity|exact Hr].
Defined.

Lemma shift_magnitude_completes magnitude f :
  (0 <? f)%float = true ->
  (forall i, i < length magnitude -> exists k, new_freq f i = Ok k) ->
  exists new_magnitude, shift_magnitude magnitude f = Ok new_magnitude.
Proof.
  intros Hf Hall. unfold shift_magnitude. cbv zeta.
  apply relocate_loop_completes; [unfold zeros_like; apply length_fmap|lia|].
  intros i Hi. destruct (Hall i Hi) as [k Hk]. exists k. split; [done|].
  eapply new_freq_nonneg; eauto.
Qed.

(** X2: for a positive factor the loop raises only through [int]: it
    completes exactly when [int(i * factor)] is defined for every bin, and
    never with an [IndexError]. *)
Theorem shift_magnitude_completes_iff (magnitude : list row) (f : float) :
  (0 <? f)%float = true ->
  (exists new_magnitude, shift_magnitude magnitude f = Ok new_magnitude) <->
  (forall i, i < length magnitude -> exists k, new_freq f i = Ok k).
Proof.
  intros Hf. unfold shift_magnitude. cbv zeta.
  assert (Hz : length (zeros_like magnitude) = length magnitude).
  { unfold zeros_like. apply length_fmap. }
  split.
  - intros [new Hloop] i Hi.
    destruct (relocate_loop_steps _ _ _ _ _ Hz Hloop i Hi) as (k & Hk & _). eauto.
  - intros Hall. apply (shift_magnitude_completes magnitude f Hf Hall).
Qed.

Lemma shift_magnitude_completes_iff_witness :
  (0 <? factor_1_2)%float = true /\
  ((exists new_magnitude, shift_magnitude (ramp 6) factor_1_2 = Ok new_magnitude) <->
   (forall i, i < length (ramp 6) -> exists k, new_freq factor_1_2 i = Ok k)).
Proof.
  split; [reflexivity|].
  apply (shift_magnitude_completes_iff (ramp 6) factor_1_2). reflexivity.
Defined.

Lemma fixes_bins_spec f n i :
  fixes_bins f n = true -> i < n -> new_freq f i = Ok (Z.of_nat i).
Proof.
  unfold fixes_bins. rewrite forallb_forall. intros H Hi.
  specialize (H i). rewrite in_seq in H.
  destruct (new_freq f i) as [k|e]; [|discriminate H; lia].
  f_equal. apply Z.eqb_eq. apply H. lia.
Qed.

(** X3: the factor 1.0 relocates nothing: on a spectrogram of at most 1025
    bins (what [librosa.stft] returns by default) the loop completes and
    returns the magnitude it was given. *)
Theorem shift_magnitude_factor_one (magnitude : list row) :
  length magnitude <= 1025 ->
  shift_magnitude magnitude 1 = Ok magnitude.
Proof.
  intros Hn.
  assert (Hfix : forall i, i < length magnitude -> new_freq 1 i = Ok (Z.of_nat i)).
  { intros i Hi. apply (fixes_bins_spec 1 1025); [vm_compute; reflexivity|lia]. }
  assert (Hf : (0 <? 1)%float = true) by reflexivity.
  destruct (shift_magnitude_completes magnitude 1 Hf) as [new Hloop].
  { intros i Hi. eauto. }
  rewrite Hloop. f_equal.
  destruct (shift_magnitude_spec _ _ _ Hloop) as [Hlen Hspec].
  apply list_eq. intros d. rewrite Hspec.
  destruct (decide (d < length magnitude)) as [Hd|Hd].
  - rewrite (last_source_intro _ 1 _ d d); [done|done| |].
    + apply (target_positive (length magnitude) 1 d d Hf).
      split; [apply Hfix; done|done].
    + intros j Hj Ht. apply (target_positive (length magnitude) 1 j d Hf) in Ht as [Ht _].
      rewrite Hfix in Ht by lia. injection Ht as Ht. lia.
  - destruct (last_source _ 1 _ d) as [i|] eqn:El.
    + apply last_source_Some in El as (_ & Ht & _). apply target_lt in Ht. lia.
    + unfold zeros_like. rewrite list_lookup_fmap.
      rewrite (lookup_ge_None_2 magnitude d) by lia. done.
Qed.

Lemma shift_magnitude_factor_one_witness :
  length (ramp 6) <= 1025 /\ shift_magnitude (ramp 6) 1 = Ok (ramp 6).
Proof.
  assert (H : length (ramp 6) <= 1025) by (simpl; lia).
  split; [exact H|]. exact (shift_magnitude_factor_one (ramp 6) H).
Defined.

Lemma new_freq_non_finite f :
  non_finite f ->
  new_freq f 0 = Raise (ValueError "cannot convert float NaN to integer").
Proof.
  intros Hf. unfold new_freq, py_int. rewrite mul_spec.
  replace (Prim2SF (float_of_nat 0)) with (S754_zero false) by reflexivity.
  destruct Hf as [->|[s ->]]; reflexivity.
Qed.

(** X4: a factor that is NaN or infinite stops the loop at bin 0 with
    [ValueError] (for an infinity too: [0 * inf] is NaN), so
    [formant_shift] returns no signal whenever the analysis returned a
    spectrogram. *)
Theorem formant_shift_non_finite_factor
    (L : Libs) (audio : list Q) (sr : Z) (f : float) (D : list (list (complex L))) :
  non_finite f ->
  librosa_shapes L ->
  lib_stft L audio 512 = Ok D ->
  shift_magnitude ((fun r : list (complex L) => np_abs L <$> r) <$> D) f
    = Raise (ValueError "cannot convert float NaN to integer") /\
  formant_shift L audio sr f
    = Raise (ValueError "cannot convert float NaN to integer").
Proof.
  intros Hf [Hshape _] HD.
  destruct (Hshape _ _ _ HD) as [Hbins _].
  assert (Hloop : shift_magnitude ((fun r : list (complex L) => np_abs L <$> r) <$> D) f
                  = Raise (ValueError "cannot convert float NaN to integer")).
  { destruct D as [|d0 D']; [discriminate|].
    unfold shift_magnitude. cbv zeta. rewrite length_fmap.
    change (length (d0 :: D')) with (S (length D')).
    change (seq 0 (S (length D'))) with (0 :: seq 1 (length D')).
    cbn [foldM]. unfold relocate at 1. cbv zeta.
    rewrite (new_freq_non_finite f Hf). reflexivity. }
  split; [exact Hloop|].
  unfold formant_shift. rewrite HD. simpl. rewrite Hloop. reflexivity.
Qed.

Lemma formant_shift_non_finite_factor_witness :
  non_finite nan /\
  librosa_shapes Demo.libs /\
  exists D,
    lib_stft Demo.libs Demo.square 512 = Ok D /\
    shift_magnitude ((fun r : list Q => np_abs Demo.libs <$> r) <$> D) nan
      = Raise (ValueError "cannot convert float NaN to integer") /\
    formant_shift Demo.libs Demo.square 22050 nan
      = Raise (ValueError "cannot convert float NaN to integer").
Proof.
  assert (Hn : non_finite nan) by (left; reflexivity).
  split; [exact Hn|]. split; [exact Demo_shapes|].
  eexists. split; [reflexivity|].
  apply (formant_shift_non_finite_factor Demo.libs Demo.square 22050 nan);
    [exact Hn|exact Demo_shapes|reflexivity].
Defined.

Lemma negative_float_sign f :
  (f <? 0)%float = true ->
  match Prim2SF f with
  | S754_finite s _ _ | S754_infinity s => s = true
  | _ => False
  end.
Proof.
  rewrite ltb_spec.
  replace (Prim2SF 0%float) with (S754_zero false) by reflexivity.
  unfold SFltb, SFcompare.
  destruct (Prim2SF f) as [s|s| |s m e]; try discriminate; destruct s; easy.
Qed.

Lemma SFmul_nonpos x y :
  SFnonneg x ->
  match y with S754_finite s _ _ | S754_infinity s => s = true | _ => False end ->
  SFnonpos (SFmul prec emax x y).
Proof.
  destruct x as [sx|sx| |sx mx ex], y as [sy|sy| |sy my ey]; simpl; try easy.
  - intros -> ->. reflexivity.
  - intros -> ->. reflexivity.
  - intros -> ->. reflexivity.
  - intros -> ->.
    pose proof (binary_round_aux_sign (xorb false true) (Z.pos (mx * my)) (ex + ey) loc_Exact)
      as H.
    destruct (binary_round_aux _ _ _ _ _ _); simpl in *; auto.
Qed.

(** With a negative factor no destination index is positive. *)
Lemma new_freq_nonpos f i k :
  (f <? 0)%float = true -> new_freq f i = Ok k -> (k <= 0)%Z.
Proof.
  intros Hf. unfold new_freq, py_int.
  pose proof (SFmul_nonpos _ _ (float_of_nat_nonneg i) (negative_float_sign f Hf)) as Hn.
  rewrite mul_spec. fold (SF64mul (Prim2SF (float_of_nat i)) (Prim2SF f)).
  unfold SF64mul.
  destruct (SFmul prec emax _ _) as [s|s| |s m e] eqn:E; try discriminate.
  - intros [= <-]. lia.
  - simpl in Hn. subst s. intros [= <-]. unfold SFtrunc.
    destruct (0 <=? e)%Z.
    + pose proof (Z.shiftl_nonneg (Z.pos m) e). lia.
    + pose proof (Z.shiftr_nonneg (Z.pos m) (- e)). lia.
Qed.

Lemma target_negative n f i k :
  (f <? 0)%float = true -> i < n -> new_freq f i = Ok k ->
  (- Z.of_nat n <= k)%Z ->
  target n f i = Some (wrapped_bin n k).
Proof.
  intros Hf Hi Hk Hlo. pose proof (new_freq_nonpos f i k Hf Hk) as Hhi.
  unfold target, wrapped_bin. rewrite Hk. cbv zeta.
  destruct (Z.ltb_spec k (Z.of_nat n)); [|lia].
  destruct (Z.leb_spec 0 k).
  - assert (k = 0%Z) as -> by lia. rewrite Z.add_0_r, Z.mod_same by lia. done.
  - destruct (Z.leb_spec (- Z.of_nat n) k); [|lia].
    rewrite Z.mod_small by lia. done.
Qed.

(** X5: the guard [new_freq < freq_bins] has no lower bound. With a
    negative factor a completed loop dropped no source bin: every
    [int(i * factor)] lies in [-freq_bins .. 0] and numpy counted it from the
    end, so bin [(freq_bins + int(i * factor)) mod freq_bins] holds the row of
    the last source bin sent there. *)
Theorem shift_magnitude_negative_factor
    (magnitude : list row) (f : float) (new_magnitude : list row) :
  (f <? 0)%float = true ->
  shift_magnitude magnitude f = Ok new_magnitude ->
  (forall i, i < length magnitude ->
     exists k, new_freq f i = Ok k /\
               (- Z.of_nat (length magnitude) <= k <= 0)%Z) /\
  (forall i k, i < length magnitude -> new_freq f i = Ok k ->
     (forall j k', i < j < length magnitude -> new_freq f j = Ok k' ->
        wrapped_bin (length magnitude) k' <> wrapped_bin (length magnitude) k) ->
     new_magnitude !! wrapped_bin (length magnitude) k = magnitude !! i).
Proof.
  intros Hf Hloop.
  assert (Hz : length (zeros_like magnitude) = length magnitude).
  { unfold zeros_like. apply length_fmap. }
  assert (Hidx : forall i, i < length magnitude ->
            exists k, new_freq f i = Ok k /\
                      (- Z.of_nat (length magnitude) <= k <= 0)%Z).
  { intros i Hi.
    destruct (relocate_loop_steps _ _ _ _ _ Hz Hloop i Hi) as (k & Hk & Hlo).
    exists k. split; [done|].
    pose proof (new_freq_nonpos f i k Hf Hk). split; [apply Hlo|]; lia. }
  split; [exact Hidx|].
  intros i k Hi Hk Hlast.
  destruct (shift_magnitude_spec _ _ _ Hloop) as [_ Hspec].
  destruct (Hidx i Hi) as (k0 & Hk0 & Hr). rewrite Hk in Hk0. injection Hk0 as <-.
  rewrite Hspec, (last_source_intro _ f _ _ i); [done|done| |].
  - apply target_negative; [done|done|done|lia].
  - intros j Hj Ht. destruct (Hidx j) as (k' & Hk' & Hr'); [lia|].
    rewrite (target_negative _ f j k') in Ht; [|done|lia|done|lia].
    injection Ht as Ht. exact (Hlast j k' Hj Hk' Ht).
Qed.

Lemma shift_magnitude_negative_factor_witness :
  (-0.5 <? 0)%float = true /\
  shift_magnitude (ramp 5) (-0.5)%float = Ok [[2%Q]; [0%Q]; [0%Q]; [5%Q]; [4%Q]] /\
  new_freq (-0.5)%float 4 = Ok (-2)%Z /\
  wrapped_bin 5 (-2) = 3 /\
  [[2%Q]; [0%Q]; [0%Q]; [5%Q]; [4%Q]] !! 3 = ramp 5 !! 4.
Proof.
  split; [reflexivity|]. split; [reflexivity|]. split; [reflexivity|].
  split; [reflexivity|].
  apply (proj2 (shift_magnitude_negative_factor (ramp 5) (-0.5)%float
                  [[2%Q]; [0%Q]; [0%Q]; [5%Q]; [4%Q]] eq_refl eq_refl) 4 (-2)%Z).
  - simpl. lia.
  - reflexivity.
  - intros j k' [Hlo Hhi]. simpl in Hhi. lia.
Defined.

(** ** The enhancer *)

(** X6: the cutoff handed to [butter] is [2000 / (sr // 2)]. A rate of 0 or
    1 Hz makes the Nyquist frequency 0 and the enhancer raises
    [ZeroDivisionError] before any filter is designed; for every other rate
    the filter is designed with order 2 and that cutoff, which is a valid
    normalized frequency (strictly between 0 and 1) exactly when the rate
    is at least 4002 Hz. *)
Theorem enhancer_cutoff (L : Libs) (audio : list Q) (sr : Z) :
  ((0 <= sr <= 1)%Z ->
   apply_female_characteristics L audio sr
     = Raise (ZeroDivisionError "division by zero")) /\
  ((sr < 0 \/ 2 <= sr)%Z ->
   apply_female_characteristics L audio sr
     = (ba <- lib_butter L 2 (inject_Z 2000 / inject_Z (sr / 2))%Q "high";
        enhanced_audio <- lib_filtfilt L ba.1 ba.2 audio;
        np_add (np_scale (7 # 10) audio) (np_scale (3 # 10) enhanced_audio)) /\
   ((0 < inject_Z 2000 / inject_Z (sr / 2) /\
     inject_Z 2000 / inject_Z (sr / 2) < 1)%Q <-> (4002 <= sr)%Z)).
Proof.
  pose proof (Z.div_mod sr 2 ltac:(lia)) as Hdm.
  pose proof (Z.mod_pos_bound sr 2 ltac:(lia)) as Hmod.
  split.
  - intros Hsr. unfold apply_female_characteristics, py_truediv. cbv zeta.
    assert (sr / 2 = 0)%Z as -> by lia. reflexivity.
  - intros Hsr. split.
    + unfold apply_female_characteristics, py_truediv. cbv zeta.
      destruct (Z.eqb_spec (sr / 2) 0) as [H0|H0]; [lia|]. reflexivity.
    + destruct (sr / 2)%Z as [|q|q] eqn:Eq; [lia| |].
      * unfold Qlt, Qdiv, Qmult, Qinv, inject_Z. simpl. lia.
      * unfold Qlt, Qdiv, Qmult, Qinv, inject_Z. simpl. lia.
Qed.

(** ** Lengths through the whole conversion *)

Lemma librosa_normalize_length x : length (librosa_normalize x) = length x.
Proof.
  unfold librosa_normalize. cbv zeta.
  destruct (Qeq_bool (peak x) 0); [done|apply length_fmap].
Qed.

Lemma apply_female_characteristics_length (L : Libs) audio sr out :
  filtfilt_keeps_shape L ->
  apply_female_characteristics L audio sr = Ok out -> length out = length audio.
Proof.
  intros Hfilt. unfold apply_female_characteristics. cbv zeta.
  destruct (py_truediv 2000 (sr / 2)) as [Wn|e]; simpl; [|discriminate].
  destruct (lib_butter L 2 Wn "high") as [ba|e]; simpl; [|discriminate].
  destruct (lib_filtfilt L ba.1 ba.2 audio) as [en|e] eqn:Ef; simpl; [|discriminate].
  apply Hfilt in Ef. unfold np_add, np_scale.
  rewrite !length_fmap, Ef, Nat.eqb_refl. intros H. apply Ok_inj in H. subst out.
  rewrite length_zip_with, !length_fmap, Ef. lia.
Qed.

Lemma convert_audio_length (L : Libs) audio sr ps ff b out :
  librosa_shapes L -> filtfilt_keeps_shape L ->
  convert_audio L audio sr ps ff b = Ok out ->
  length out = 512 * (length audio / 512).
Proof.
  intros Hshapes Hfilt Hout. unfold convert_audio, convert_steps in Hout.
  destruct (pitch_shift L audio sr ps) as [a1|e] eqn:E1; simpl in Hout; [|discriminate].
  assert (H1 : length a1 = length audio).
  { unfold pitch_shift, librosa_pitch_shift in E1.
    destruct (lib_stretch_resample L audio sr ps) as [y|e]; simpl in E1; [|discriminate].
    apply Ok_inj in E1. subst a1. apply fix_length_length. }
  destruct (formant_shift L a1 sr ff) as [a2|e] eqn:E2; simpl in Hout; [|discriminate].
  pose proof (formant_shift_length L a1 sr ff a2 Hshapes E2) as H2.
  rewrite H1 in H2.
  destruct (1 <? b)%float.
  - destruct (apply_female_characteristics L a2 sr) as [a3|e] eqn:E3; simpl in Hout;
      [|discriminate].
    apply Ok_inj in Hout. subst out.
    rewrite librosa_normalize_length.
    rewrite (apply_female_characteristics_length L a2 sr a3 Hfilt E3). done.
  - simpl in Hout. apply Ok_inj in Hout. subst out.
    rewrite librosa_normalize_length. done.
Qed.

Lemma Demo_filtfilt_shape : filtfilt_keeps_shape Demo.libs.
Proof.
  intros b a x y H. change (Demo.filtfilt b a x = Ok y) in H.
  unfold Demo.filtfilt in H. destruct (length x <=? 9)%nat; [discriminate|].
  apply Ok_inj in H. subst y. apply length_fmap.
Qed.

(** X7: the file written by a successful conversion has [512 * (n // 512)]
    samples, [n] being the number of samples loaded: the pitch shift, the
    enhancer and the normalization keep the length, the formant shift cuts
    it to whole hops. *)
Theorem converted_file_length
    (L : Libs) (self : VoiceConverter) (path : string) (ps ff b : float)
    (w w' : World) (name : string) :
  librosa_shapes L -> filtfilt_keeps_shape L ->
  convert_to_female_voice L self path ps ff b w = (Ok (Some name), w') ->
  exists f0 y f,
    files w !! path = Some f0 /\
    lib_decode L f0 (sample_rate self) = Ok y /\
    files w' !! name = Some f /\
    length (file_samples f) = 512 * (length y / 512).
Proof.
  intros Hshapes Hfilt H.
  apply convert_success, convert_try_success in H
    as (f0 & y & audio & name' & Hf & Hy & Ha & _ & [= <-] & Hfiles).
  pose proof (convert_audio_length L y _ ps ff b audio Hshapes Hfilt Ha) as Hlen.
  exists f0, y, {| file_rate := sample_rate self; file_samples := audio |}.
  split; [done|]. split; [done|].
  split; [rewrite Hfiles; apply lookup_insert_eq|exact Hlen].
Qed.

Lemma converted_file_length_witness :
  librosa_shapes Demo.libs /\ filtfilt_keeps_shape Demo.libs /\
  exists w',
    convert_to_female_voice Demo.libs converter "/in.wav"
      4 factor_1_2 brightness_1_1 Demo.world_in
    = (Ok (Some "/tmp/tmp0.wav"), w') /\
    exists f0 y f,
      files Demo.world_in !! "/in.wav" = Some f0 /\
      lib_decode Demo.libs f0 (sample_rate converter) = Ok y /\
      files w' !! "/tmp/tmp0.wav" = Some f /\
      length (file_samples f) = 512 * (length y / 512).
Proof.
  split; [exact Demo_shapes|]. split; [exact Demo_filtfilt_shape|].
  eexists. split; [vm_compute; reflexivity|].
  apply (converted_file_length Demo.libs converter "/in.wav"
           4 factor_1_2 brightness_1_1 Demo.world_in);
    [exact Demo_shapes|exact Demo_filtfilt_shape|vm_compute; reflexivity].
Defined.

(** X8: a signal of fewer than 512 samples (less than one hop) leaves the
    formant shift without any sample. *)
Theorem formant_shift_short_signal
    (L : Libs) (audio : list Q) (sr : Z) (f : float) (out : list Q) :
  librosa_shapes L ->
  length audio < 512 ->
  formant_shift L audio sr f = Ok out ->
  out = [].
Proof.
  intros Hshapes Hshort Hout. apply nil_length_inv.
  rewrite (formant_shift_length L audio sr f out Hshapes Hout).
  rewrite Nat.div_small by done. lia.
Qed.

Lemma formant_shift_short_signal_witness :
  librosa_shapes Demo.libs /\
  length (replicate 500 (1 # 2)%Q) < 512 /\
  formant_shift Demo.libs (replicate 500 (1 # 2)%Q) 22050 factor_1_2 = Ok [] /\
  @nil Q = [].
Proof.
  assert (Hs : length (replicate 500 (1 # 2)%Q) < 512) by (vm_compute; lia).
  assert (Hr : formant_shift Demo.libs (replicate 500 (1 # 2)%Q) 22050 factor_1_2 = Ok [])
    by (vm_compute; reflexivity).
  split; [exact Demo_shapes|]. split; [exact Hs|]. split; [exact Hr|].
  exact (formant_shift_short_signal Demo.libs (replicate 500 (1 # 2)%Q) 22050
           factor_1_2 [] Demo_shapes Hs Hr).
Defined.

(** ** What a conversion does to the disk and to standard output *)

(** The [try] block of the conversion prints nothing, creates at most one
    temporary file, and stores audio only when it succeeds, under the
    temporary name. *)
Lemma convert_try_effects (L : Libs) self path ps ff b w r w' :
  convert_try L self path ps ff b w = (r, w') ->
  stdout w' = stdout w /\
  match r with
  | Ok out =>
      exists name audio,
        out = Some name /\
        lib_mkstemp L (temp_count w) ".wav" = Ok name /\
        temp_count w' = S (temp_count w) /\
        files w' = <[name := {| file_rate := sample_rate self; file_samples := audio |}]>
                     (files w)
  | Raise e =>
      files w' = files w /\
      (temp_count w' = temp_count w \/ temp_count w' = S (temp_count w)) /\
      (files w !! path = None -> temp_count w' = temp_count w)
  end.
Proof.
  unfold convert_try, bind, librosa_load, lift, NamedTemporaryFile, sf_write, ret, store.
  destruct (files w !! path) as [f0|].
  2:{ intros [= <- <-]. auto. }
  destruct (lib_decode L f0 (sample_rate self)) as [y|e]; simpl.
  2:{ intros [= <- <-]. split; [done|]. split; [done|]. split; [auto|discriminate]. }
  destruct (convert_audio L y (sample_rate self) ps ff b) as [audio|e].
  2:{ intros [= <- <-]. split; [done|]. split; [done|]. split; [auto|discriminate]. }
  destruct (lib_mkstemp L (temp_count w) ".wav") as [name|e].
  2:{ intros [= <- <-]. simpl. split; [done|]. split; [done|]. split; [auto|discriminate]. }
  destruct (lib_sf_accepts L audio (sample_rate self)) as [[]|e].
  2:{ intros [= <- <-]. simpl. split; [done|]. split; [done|]. split; [auto|discriminate]. }
  intros [= <- <-]. simpl. split; [done|]. exists name, audio. done.
Qed.

(** X9: a successful conversion prints nothing, creates exactly one
    temporary file, whose name it returns, and changes no other file: the
    input file is as it was unless the temporary name is the input path. *)
Theorem convert_success_effects
    (L : Libs) (self : VoiceConverter) (path : string) (ps ff b : float)
    (w w' : World) (name : string) :
  convert_to_female_voice L self path ps ff b w = (Ok (Some name), w') ->
  lib_mkstemp L (temp_count w) ".wav" = Ok name /\
  temp_count w' = S (temp_count w) /\
  stdout w' = stdout w /\
  (forall p, p <> name -> files w' !! p = files w !! p) /\
  (path <> name -> files w' !! path = files w !! path).
Proof.
  intros H. apply convert_success in H.
  apply convert_try_effects in H as (Hout & name' & audio & [= <-] & Hn & Htc & Hfiles).
  assert (Hframe : forall p, p <> name -> files w' !! p = files w !! p).
  { intros p Hp. rewrite Hfiles. apply lookup_insert_ne. congruence. }
  repeat split; auto.
Qed.

Lemma convert_success_effects_witness :
  exists w',
    convert_to_female_voice Demo.libs converter "/in.wav"
      4 factor_1_2 brightness_1_1 Demo.world_in
    = (Ok (Some "/tmp/tmp0.wav"), w') /\
    lib_mkstemp Demo.libs (temp_count Demo.world_in) ".wav" = Ok "/tmp/tmp0.wav" /\
    temp_count w' = S (temp_count Demo.world_in) /\
    stdout w' = stdout Demo.world_in /\
    (forall p, p <> "/tmp/tmp0.wav" -> files w' !! p = files Demo.world_in !! p) /\
    ("/in.wav" <> "/tmp/tmp0.wav" -> files w' !! "/in.wav" = files Demo.world_in !! "/in.wav").
Proof.
  eexists. split; [vm_compute; reflexivity|].
  apply (convert_success_effects Demo.libs converter "/in.wav"
           4 factor_1_2 brightness_1_1 Demo.world_in).
  vm_compute; reflexivity.
Defined.

(** X10: a conversion that returns [None] printed exactly one line, the
    prefix followed by [str(e)] of the exception its [try] block raised,
    and left every audio file as it was. When there is no file at the input
    path it did not create a temporary file either. *)
Theorem convert_failure_effects
    (L : Libs) (self : VoiceConverter) (path : string) (ps ff b : float)
    (w w' : World) :
  convert_to_female_voice L self path ps ff b w = (Ok None, w') ->
  exists e w1,
    convert_try L self path ps ff b w = (Raise e, w1) /\
    stdout w' = stdout w ++ ["변환 중 오류 발생: " +:+ exn_str e] /\
    files w' = files w /\
    (files w !! path = None -> temp_count w' = temp_count w).
Proof.
  unfold convert_to_female_voice, try_except.
  destruct (convert_try L self path ps ff b w) as [[out|e] w1] eqn:Et.
  - intros [= -> <-].
    apply convert_try_effects in Et as (_ & name & audio & [=] & _).
  - unfold bind, print, ret. intros [= <-]. simpl.
    apply convert_try_effects in Et as (Hout & Hfiles & _ & Hmiss).
    exists e, w1. rewrite Hout. done.
Qed.

Lemma convert_failure_effects_witness :
  exists w',
    convert_to_female_voice Demo.libs converter "/missing.wav"
      4 factor_1_2 brightness_1_1 Demo.world_in
    = (Ok None, w') /\
    exists e w1,
      convert_try Demo.libs converter "/missing.wav"
        4 factor_1_2 brightness_1_1 Demo.world_in = (Raise e, w1) /\
      stdout w' = stdout Demo.world_in ++ ["변환 중 오류 발생: " +:+ exn_str e] /\
      files w' = files Demo.world_in /\
      (files Demo.world_in !! "/missing.wav" = None ->
       temp_count w' = temp_count Demo.world_in).
Proof.
  eexists. split; [vm_compute; reflexivity|].
  apply (convert_failure_effects Demo.libs converter "/missing.wav"
           4 factor_1_2 brightness_1_1 Demo.world_in).
  vm_compute; reflexivity.
Defined.

(** Whatever its outcome, a conversion writes at most the temporary file
    it creates. *)
Lemma convert_frame (L : Libs) self path ps ff b w r w' :
  convert_to_female_voice L self path ps ff b w = (r, w') ->
  forall p, lib_mkstemp L (temp_count w) ".wav" <> Ok p ->
            files w' !! p = files w !! p.
Proof.
  unfold convert_to_female_voice, try_except.
  destruct (convert_try L self path ps ff b w) as [[out|e] w1] eqn:Et.
  - intros [= <- <-] p Hp.
    apply convert_try_effects in Et as (_ & name & audio & _ & Hn & _ & Hfiles).
    rewrite Hfiles. apply lookup_insert_ne. congruence.
  - unfold bind, print, ret. intros [= <- <-] p Hp. simpl.
    apply convert_try_effects in Et as (_ & Hfiles & _). rewrite Hfiles. done.
Qed.

(** The effects of preparing the input file. *)
Lemma input_path_effects (L : Libs) src w r w1 :
  input_path L src w = (r, w1) ->
  match src with
  | FilePath path => r = Ok path /\ w1 = w
  | Recorded rate data =>
      temp_count w1 = S (temp_count w) /\ stdout w1 = stdout w /\
      match r with
      | Ok tin =>
          lib_mkstemp L (temp_count w) ".wav" = Ok tin /\
          lib_wavfile_accepts L rate data = Ok tt /\
          files w1 = <[tin := {| file_rate := rate; file_samples := data |}]> (files w)
      | Raise e =>
          files w1 = files w /\
          (lib_mkstemp L (temp_count w) ".wav" = Raise e \/
           lib_wavfile_accepts L rate data = Raise e)
      end
  end.
Proof.
  destruct src as [rate data|path]; simpl.
  - unfold bind, NamedTemporaryFile, wavfile_write, ret, store.
    destruct (lib_mkstemp L (temp_count w) ".wav") as [tin|e].
    2:{ intros [= <- <-]. simpl. auto. }
    destruct (lib_wavfile_accepts L rate data) as [[]|e].
    + intros [= <- <-]. simpl. auto.
    + intros [= <- <-]. simpl. auto.
  - unfold ret. intros [= <- <-]. auto.
Qed.

(** X11: whatever it is given and however it ends, [process_voice] writes
    only to temporary files it creates: every path that is not the name of
    one of the next two temporary files holds after the call what it held
    before. *)
Theorem process_voice_writes_only_temporaries
    (L : Libs) (input : option audio_source) (ps ff b : float)
    (w w' : World) (r : result (option string * string)) (p : string) :
  process_voice L input ps ff b w = (r, w') ->
  lib_mkstemp L (temp_count w) ".wav" <> Ok p ->
  lib_mkstemp L (S (temp_count w)) ".wav" <> Ok p ->
  files w' !! p = files w !! p.
Proof.
  intros H Hp0 Hp1. destruct input as [src|]; unfold process_voice in H.
  2:{ unfold ret in H. injection H as <- <-. done. }
  unfold try_except, process_try, bind in H.
  destruct (input_path L src w) as [[path|e] w1] eqn:Ei.
  - destruct (convert_to_female_voice L converter path ps ff b w1) as [rc w2] eqn:Ec.
    assert (Hw2 : files w2 !! p = files w !! p).
    { apply input_path_effects in Ei. destruct src as [rate data|path'].
      - destruct Ei as (Htc & _ & Hn & _ & Hfiles).
        rewrite (convert_frame _ _ _ _ _ _ _ _ _ Ec p); [|rewrite Htc; done].
        rewrite Hfiles. apply lookup_insert_ne. congruence.
      - destruct Ei as [_ ->]. apply (convert_frame _ _ _ _ _ _ _ _ _ Ec p). done. }
    destruct rc as [[out|]|e]; unfold ret in H.
    + destruct (decide (out = "")); injection H as <- <-; done.
    + injection H as <- <-. done.
    + injection H as <- <-. done.
  - unfold ret in H. injection H as <- <-.
    apply input_path_effects in Ei. destruct src as [rate data|path'].
    + destruct Ei as (_ & _ & Hfiles & _). rewrite Hfiles. done.
    + destruct Ei as [[=] _].
Qed.

Lemma process_voice_writes_only_temporaries_witness :
  exists r w',
    process_voice Demo.libs (Some (Recorded 44100 Demo.square))
      4 factor_1_2 brightness_1_1 Demo.world_in = (r, w') /\
    lib_mkstemp Demo.libs (temp_count Demo.world_in) ".wav" <> Ok "/in.wav" /\
    lib_mkstemp Demo.libs (S (temp_count Demo.world_in)) ".wav" <> Ok "/in.wav" /\
    files w' !! "/in.wav" = files Demo.world_in !! "/in.wav".
Proof.
  assert (H0 : lib_mkstemp Demo.libs (temp_count Demo.world_in) ".wav" <> Ok "/in.wav")
    by (vm_compute; discriminate).
  assert (H1 : lib_mkstemp Demo.libs (S (temp_count Demo.world_in)) ".wav" <> Ok "/in.wav")
    by (vm_compute; discriminate).
  eexists. eexists. split; [vm_compute; reflexivity|]. split; [exact H0|]. split; [exact H1|].
  eapply (process_voice_writes_only_temporaries Demo.libs
           (Some (Recorded 44100 Demo.square)) 4 factor_1_2 brightness_1_1
           Demo.world_in _ _ "/in.wav"); [vm_compute; reflexivity|exact H0|exact H1].
Defined.

(** X12: the temporary copy of a recording is never deleted: once
    [wavfile.write] has stored it, it is on disk after the call with the
    rate and the samples that were handed over, whether the conversion
    succeeded or not (the next temporary file having another name). *)
Theorem recording_copy_is_kept
    (L : Libs) (rate : Z) (data : list Q) (ps ff b : float)
    (w w' : World) (r : result (option string * string)) (tin : string) :
  process_voice L (Some (Recorded rate data)) ps ff b w = (r, w') ->
  lib_mkstemp L (temp_count w) ".wav" = Ok tin ->
  lib_wavfile_accepts L rate data = Ok tt ->
  lib_mkstemp L (S (temp_count w)) ".wav" <> Ok tin ->
  files w' !! tin = Some {| file_rate := rate; file_samples := data |} /\
  temp_count w < temp_count w'.
Proof.
  intros H Htin Hacc Hnext. unfold process_voice, try_except, process_try, bind in H.
  destruct (input_path L (Recorded rate data) w) as [[path|e] w1] eqn:Ei;
    apply input_path_effects in Ei.
  - destruct Ei as (Htc & _ & Hn & _ & Hfiles).
    rewrite Htin in Hn. injection Hn as <-.
    destruct (convert_to_female_voice L converter tin ps ff b w1) as [rc w2] eqn:Ec.
    assert (Hw2 : files w2 !! tin
                  = Some {| file_rate := rate; file_samples := data |} /\
                  temp_count w < temp_count w2).
    { split.
      - rewrite (convert_frame _ _ _ _ _ _ _ _ _ Ec tin); [|rewrite Htc; done].
        rewrite Hfiles. apply lookup_insert_eq.
      - unfold convert_to_female_voice, try_except in Ec.
        destruct (convert_try L converter tin ps ff b w1) as [[out|e] w3] eqn:Et;
          apply convert_try_effects in Et.
        + injection Ec as <- <-. destruct Et as (_ & name & audio & _ & _ & Ht & _). lia.
        + unfold bind, print, ret in Ec. injection Ec as <- <-. simpl.
          destruct Et as (_ & _ & [Ht|Ht] & _); lia. }
    destruct rc as [[out|]|e]; unfold ret in H.
    + destruct (decide (out = "")); injection H as <- <-; done.
    + injection H as <- <-. done.
    + injection H as <- <-. done.
  - destruct Ei as (_ & _ & _ & [He|He]); congruence.
Qed.

Lemma recording_copy_is_kept_witness :
  exists r w',
    process_voice Demo.libs (Some (Recorded 44100 [])) 4 factor_1_2 brightness_1_1
      Demo.world0 = (r, w') /\
    r = Ok (None, msg_failed) /\
    lib_mkstemp Demo.libs (temp_count Demo.world0) ".wav" = Ok "/tmp/tmp0.wav" /\
    lib_wavfile_accepts Demo.libs 44100 [] = Ok tt /\
    lib_mkstemp Demo.libs (S (temp_count Demo.world0)) ".wav" <> Ok "/tmp/tmp0.wav" /\
    files w' !! "/tmp/tmp0.wav" = Some {| file_rate := 44100; file_samples := [] |} /\
    temp_count Demo.world0 < temp_count w'.
Proof.
  assert (H1 : lib_mkstemp Demo.libs (S (temp_count Demo.world0)) ".wav"
               <> Ok "/tmp/tmp0.wav") by (vm_compute; discriminate).
  eexists. eexists. split; [vm_compute; reflexivity|]. split; [reflexivity|].
  split; [reflexivity|]. split; [reflexivity|]. split; [exact H1|].
  eapply (recording_copy_is_kept Demo.libs 44100 [] 4 factor_1_2 brightness_1_1
           Demo.world0 _ _ "/tmp/tmp0.wav");
    [vm_compute; reflexivity|reflexivity|reflexivity|exact H1].
Defined.

(** ** Outcomes of [process_voice] *)

Lemma msg_done_distinct e :
  msg_done <> msg_no_input /\ msg_done <> msg_failed /\ msg_done <> msg_error e.
Proof.
  unfold msg_done, msg_no_input, msg_failed, msg_error. simpl.
  repeat split; discriminate.
Qed.

Lemma convert_success_effects_aux (L : Libs) self path ps ff b w w' name :
  convert_to_female_voice L self path ps ff b w = (Ok (Some name), w') ->
  is_Some (files w' !! name) /\ stdout w' = stdout w.
Proof.
  intros H. apply convert_success in H.
  apply convert_try_effects in H as (Hout & name' & audio & [= <-] & _ & _ & Hfiles).
  split; [|done]. rewrite Hfiles, lookup_insert_eq. eauto.
Qed.

(** X13: [process_voice] returns a path exactly when it returns the
    success message; the path is then not empty and names a file on disk,
    and the call printed nothing. *)
Theorem process_voice_success_iff
    (L : Libs) (input : option audio_source) (ps ff b : float)
    (w w' : World) (out : option string) (msg : string) :
  process_voice L input ps ff b w = (Ok (out, msg), w') ->
  (is_Some out <-> msg = msg_done) /\
  (forall p, out = Some p ->
     p <> "" /\ is_Some (files w' !! p) /\ stdout w' = stdout w).
Proof.
  intros H. destruct (msg_done_distinct (Exception "" "")) as (Hd1 & Hd2 & _).
  destruct input as [src|]; unfold process_voice in H.
  2:{ unfold ret in H. injection H as <- <- <-. split.
      - split; [intros [? [=]]|]. intros E. symmetry in E. contradiction.
      - intros p [=]. }
  unfold try_except, process_try, bind in H.
  destruct (input_path L src w) as [[path|e] w1] eqn:Ei.
  - destruct (convert_to_female_voice L converter path ps ff b w1) as [[[p|]|e] w2] eqn:Ec;
      unfold ret in H.
    + destruct (decide (p = "")) as [->|Hp]; injection H as <- <- <-.
      * split; [|intros p [=]].
        split; [intros [? [=]]|]. intros E. symmetry in E. contradiction.
      * split; [split; [done|eauto]|]. intros p' [= <-].
        split; [done|].
        pose proof (convert_success_effects_aux L converter path ps ff b w1 w2 p Ec)
          as (Hfile & Hout).
        split; [done|].
        apply input_path_effects in Ei. destruct src as [rate data|path'].
        -- destruct Ei as (_ & Hs & _). congruence.
        -- destruct Ei as [_ ->]. done.
    + injection H as <- <- <-. split; [|intros p [=]].
      split; [intros [? [=]]|]. intros E. symmetry in E. contradiction.
    + injection H as <- <- <-. split; [|intros p [=]].
      split; [intros [? [=]]|]. intros E.
      destruct (msg_done_distinct e) as (_ & _ & Hd3). symmetry in E. contradiction.
  - unfold ret in H. injection H as <- <- <-. split; [|intros p [=]].
    split; [intros [? [=]]|]. intros E.
    destruct (msg_done_distinct e) as (_ & _ & Hd3). symmetry in E. contradiction.
Qed.

Lemma process_voice_success_iff_witness :
  exists w',
    process_voice Demo.libs (Some (FilePath "/in.wav")) 4 factor_1_2 brightness_1_1
      Demo.world_in = (Ok (Some "/tmp/tmp0.wav", msg_done), w') /\
    (is_Some (Some "/tmp/tmp0.wav") <-> msg_done = msg_done) /\
    (forall p, Some "/tmp/tmp0.wav" = Some p ->
       p <> "" /\ is_Some (files w' !! p) /\ stdout w' = stdout Demo.world_in).
Proof.
  eexists. split; [vm_compute; reflexivity|].
  apply (process_voice_success_iff Demo.libs (Some (FilePath "/in.wav"))
           4 factor_1_2 brightness_1_1 Demo.world_in).
  vm_compute; reflexivity.
Defined.

(** ** A brightness that is not a number *)

Lemma nan_not_above_one b : Prim2SF b = S754_nan -> (1 <? b)%float = false.
Proof.
  intros Hb. rewrite ltb_spec, Hb.
  replace (Prim2SF 1%float) with (S754_finite false 4503599627370496 (-52))
    by reflexivity.
  reflexivity.
Qed.

(** X14: a NaN brightness never enables the enhancer ([nan > 1.0] is
    false): the three steps are the pitch shift followed by the formant
    shift, and [process_voice] gives what it gives for the brightness 0. *)
Theorem nan_brightness_skips_enhancer
    (L : Libs) (input : option audio_source) (ps ff b : float) (w : World) :
  Prim2SF b = S754_nan ->
  (forall audio sr,
     convert_steps L audio sr ps ff b =
     (a1 <- pitch_shift L audio sr ps; formant_shift L a1 sr ff)) /\
  process_voice L input ps ff b w = process_voice L input ps ff 0 w.
Proof.
  intros Hb. pose proof (nan_not_above_one b Hb) as Hgate. split.
  - intros audio sr. unfold convert_steps. rewrite Hgate.
    destruct (pitch_shift L audio sr ps) as [a1|e]; simpl; [|reflexivity].
    destruct (formant_shift L a1 sr ff); reflexivity.
  - apply process_voice_gate. rewrite Hgate. reflexivity.
Qed.

Lemma nan_brightness_skips_enhancer_witness :
  Prim2SF nan = S754_nan /\
  process_voice Demo.libs (Some (FilePath "/in.wav")) 4 factor_1_2 nan Demo.world_in
  = process_voice Demo.libs (Some (FilePath "/in.wav")) 4 factor_1_2 0 Demo.world_in.
Proof.
  split; [reflexivity|].
  exact (proj2 (nan_brightness_skips_enhancer Demo.libs (Some (FilePath "/in.wav"))
                  4 factor_1_2 nan Demo.world_in eq_refl)).
Defined.
